(** * Apple Books highlight extractor: a shallow embedding of [main.py]

    The development follows the class [BookHighlightExtractor]:
    the search for the two SQLite stores, the connection, the title
    resolver, the highlight extractor with its book-information fallback,
    the Markdown exporter, and [main].

    Modelling conventions.
    - A column value is typed by the Core Data schema it comes from: a text
      column holds TEXT or NULL, a timestamp or the reading progress holds a
      number or NULL, a flag holds a whole number or NULL.  A TEXT value is
      a byte string; [sqlite3] hands it to Python only if it is well-formed
      UTF-8 ([TEXT]).  A number is an INTEGER or a REAL, a binary64 double
      ([number]); arithmetic on doubles is the machine's.
    - A [str] is represented by its UTF-8 encoding.
    - Python truthiness is written out ([truthy_str], [truthy_num],
      [truthy_number]): [None], the empty string and zero are false.
    - A [datetime] is naive, as the program builds it: it is represented
      by its wall-clock reading, in microseconds counted from
      1970-01-01 00:00:00 on that clock, and two of them compare as those
      readings do.
    - What belongs to the machine and not to the program is given
      ([platform]): the local date [datetime.fromtimestamp] answers for a
      number, the Unicode tables behind [str.lower], [str.isalnum] and
      [str.isspace] on text that is not ASCII, whether the C library pads a
      year, and whether a path can be opened for writing.
    - Exceptions are values of [exn]; a method is a function from the state
      to an outcome and a new state.  [print] is not modelled, except that
      [main] answers with the last message it prints.
    - The search for the databases sees the disk through the listing of
      the containers directory and through [Path.glob], whose answers are
      given ([disk]); a path is the string it prints as.
    - A path holds a database, some other file, or a directory.  The
      permissions of the files that are read are not modelled: a file that
      exists can be opened by [sqlite3]; whether the output file can be
      opened for writing is the machine's to say. *)

From Stdlib Require Import QArith Ascii String Floats.
From stdpp Require Import gmap strings list pretty sorting.

Local Open Scope Z_scope.

(** ** Python values *)

Definition truthy_str (v : option string) : bool :=
  match v with
  | Some s => negb (String.eqb s "")
  | None => false
  end.

Definition truthy_num (v : option Z) : bool :=
  match v with
  | Some z => negb (z =? 0)
  | None => false
  end.

(** [str(v)] inside an f-string: [None] prints as the text None. *)
Definition fmt_str (v : option string) : string :=
  match v with
  | Some s => s
  | None => "None"
  end.

(** A number as SQLite stores it and [sqlite3] returns it: an [int] (in
    the store a whole number of 64 bits; the bound is not modelled, Python's
    [int] has none) or a [float]. *)
Inductive number :=
  | Integer (z : Z)
  | Real (x : float).

(** The truth value of a number or [None]: [0], [0.0] and [-0.0] are
    false. *)
Definition truthy_number (v : option number) : bool :=
  match v with
  | Some (Integer z) => negb (z =? 0)
  | Some (Real x) => negb (PrimFloat.eqb x 0)
  | None => false
  end.

Definition EPOCH_OFFSET : Z := 978307200.

(** [t + 978307200]: exact on an [int], the sum of two doubles on a
    [float]. *)
Definition plus_epoch_offset (t : number) : number :=
  match t with
  | Integer z => Integer (z + EPOCH_OFFSET)
  | Real x => Real (x + 978307200)%float
  end.

(** [float(n)]: the double nearest to a whole number. *)
Definition float_of_Z (n : Z) : float :=
  SF2Prim (binary_normalize prec emax n 0 false).

(** [p * 100] *)
Definition times_100 (p : number) : float :=
  match p with
  | Integer z => float_of_Z (z * 100)
  | Real x => (x * 100)%float
  end.

(** ** Strings *)

Definition lower_ascii (c : ascii) : ascii :=
  let n := N_of_ascii c in
  if ((65 <=? n) && (n <=? 90))%N then ascii_of_N (n + 32) else c.

(** The letters A-Z folded, every other byte kept: SQLite's [LOWER], and
    [str.lower] on ASCII text. *)
Fixpoint ascii_lower (s : string) : string :=
  match s with
  | EmptyString => EmptyString
  | String c r => String (lower_ascii c) (ascii_lower r)
  end.

Definition is_ascii_char (c : ascii) : bool := (N_of_ascii c <? 128)%N.

Fixpoint is_ascii (s : string) : bool :=
  match s with
  | EmptyString => true
  | String c r => is_ascii_char c && is_ascii r
  end.

Fixpoint startswith (p s : string) : bool :=
  match p, s with
  | EmptyString, _ => true
  | String _ _, EmptyString => false
  | String a p', String b s' => Ascii.eqb a b && startswith p' s'
  end.

(** [needle in hay] on two [str]. *)
Fixpoint contains (needle hay : string) : bool :=
  startswith needle hay ||
  match hay with
  | EmptyString => false
  | String _ r => contains needle r
  end.

(** A byte of the form 10xxxxxx, which continues a UTF-8 character. *)
Definition is_continuation (c : ascii) : bool :=
  let n := N_of_ascii c in ((128 <=? n) && (n <? 192))%N.

Fixpoint skip_continuation (s : string) : string :=
  match s with
  | EmptyString => EmptyString
  | String c r => if is_continuation c then skip_continuation r else s
  end.

(** SQLite's [LIKE] on UTF-8 text: [%] matches any run of characters,
    [_] one character, every other character itself, the letters A-Z and
    a-z without regard to case. *)
Fixpoint like (p : string) : string -> bool :=
  match p with
  | EmptyString => fun s => String.eqb s ""
  | String c p' =>
      if Ascii.eqb c "%" then
        fix star (s : string) : bool :=
          like p' s || match s with
                       | EmptyString => false
                       | String _ r => star r
                       end
      else if Ascii.eqb c "_" then
        fun s => match s with
                 | EmptyString => false
                 | String d r =>
                     like p' (if (192 <=? N_of_ascii d)%N then skip_continuation r else r)
                 end
      else
        fun s => match s with
                 | EmptyString => false
                 | String d r => Ascii.eqb (lower_ascii c) (lower_ascii d) && like p' r
                 end
  end.

(** The characters of a [str], each as the bytes of its encoding: a byte
    that is not ASCII takes the continuation bytes that follow it. *)
Fixpoint characters (s : string) : list string :=
  match s with
  | EmptyString => []
  | String c r =>
      match characters r with
      | String d ch :: rest =>
          if negb (is_ascii_char c) && is_continuation d
          then String c (String d ch) :: rest
          else String c EmptyString :: String d ch :: rest
      | chs => String c EmptyString :: chs
      end
  end.

(** [str.isspace] on an ASCII character. *)
Definition isspace (c : ascii) : bool :=
  let n := N_of_ascii c in
  (((9 <=? n) && (n <=? 13)) || ((28 <=? n) && (n <=? 32)))%N.

(** [str.isalnum] on an ASCII character. *)
Definition isalnum (c : ascii) : bool :=
  let n := N_of_ascii c in
  (((48 <=? n) && (n <=? 57)) || ((65 <=? n) && (n <=? 90)) || ((97 <=? n) && (n <=? 122)))%N.

Definition nl : string := String (ascii_of_N 10) "".

(** ** Exceptions *)

Inductive exn :=
  | FileNotFoundError
  | OperationalError   (* sqlite3: no such table or column, undecodable text, unable to open *)
  | DatabaseError      (* sqlite3: file is not a database *)
  | AttributeError     (* a method called on None *)
  | ValueError         (* datetime: year out of range, not a number *)
  | OverflowError      (* datetime: timestamp out of range for time_t *)
  | OSError.           (* any other OSError: of localtime, IsADirectoryError, PermissionError *)

Inductive result (A : Type) :=
  | Ok (a : A)
  | Raise (e : exn).
Arguments Ok {A} _.
Arguments Raise {A} _.

(** ** The machine *)

Definition datetime := Z.

(** Why [datetime.fromtimestamp] refuses a number. *)
Inductive date_error :=
  | InvalidDate        (* ValueError *)
  | TimeOverflow       (* OverflowError *)
  | LocaltimeFailed.   (* OSError *)

Definition exn_of_date_error (e : date_error) : exn :=
  match e with
  | InvalidDate => ValueError
  | TimeOverflow => OverflowError
  | LocaltimeFailed => OSError
  end.

(** Why [open(path, 'w')] fails. *)
Inductive open_error :=
  | NoSuchDirectory    (* FileNotFoundError *)
  | NotWritable.       (* PermissionError and the like *)

Definition exn_of_open_error (e : open_error) : exn :=
  match e with
  | NoSuchDirectory => FileNotFoundError
  | NotWritable => OSError
  end.

Record platform := {
  (* datetime.fromtimestamp(t): the local date of t seconds after the 1970
     epoch, to the microsecond, in the time zone of the machine *)
  local_datetime : number -> datetime + date_error;
  (* whether strftime writes a year below 1000 with four digits *)
  pads_year : bool;
  (* str.lower() on a str that is not ASCII *)
  unicode_lower : string -> string;
  (* str.isalnum() and str.isspace() on a character that is not ASCII *)
  unicode_isalnum : string -> bool;
  unicode_isspace : string -> bool;
  (* the failure of open(path, 'w'), if it fails *)
  open_failure : string -> option open_error
}.

(** [s.lower()] *)
Definition lower (os : platform) (s : string) : string :=
  if is_ascii s then ascii_lower s else unicode_lower os s.

(** [c.isspace()] and [c.isalnum()] on one character of a [str]. *)
Definition char_isspace (os : platform) (ch : string) : bool :=
  match ch with
  | String c EmptyString => if is_ascii_char c then isspace c else unicode_isspace os ch
  | _ => unicode_isspace os ch
  end.

Definition char_isalnum (os : platform) (ch : string) : bool :=
  match ch with
  | String c EmptyString => if is_ascii_char c then isalnum c else unicode_isalnum os ch
  | _ => unicode_isalnum os ch
  end.

(** ** Dates *)

Definition pad (width : nat) (n : Z) : string :=
  let d := pretty n in
  String.concat "" (replicate (width - String.length d)%nat "0") +:+ d.

(** The civil date of a day number counted from 1970-01-01. *)
Definition civil_from_days (days : Z) : Z * Z * Z :=
  let z := days + 719468 in
  let era := z / 146097 in
  let doe := z - era * 146097 in
  let yoe := (doe - doe / 1460 + doe / 36524 - doe / 146096) / 365 in
  let doy := doe - (365 * yoe + yoe / 4 - yoe / 100) in
  let mp := (5 * doy + 2) / 153 in
  let d := doy - (153 * mp + 2) / 5 + 1 in
  let m := if mp <? 10 then mp + 3 else mp - 9 in
  let y := yoe + era * 400 + (if m <=? 2 then 1 else 0) in
  (y, m, d).

(** [dt.strftime('%Y-%m-%d %H:%M:%S')]: the fields of the wall-clock
    reading, the microseconds dropped. *)
Definition strftime (os : platform) (dt : datetime) : string :=
  let seconds := dt / 1000000 in
  let '(y, m, d) := civil_from_days (seconds / 86400) in
  let sod := seconds mod 86400 in
  pad (if pads_year os then 4 else 1) y +:+ "-" +:+ pad 2 m +:+ "-" +:+ pad 2 d +:+ " " +:+
  pad 2 (sod / 3600) +:+ ":" +:+ pad 2 (sod mod 3600 / 60) +:+ ":" +:+ pad 2 (sod mod 60).

(** [f"{x:.1f}"]: the value of the double to one decimal place, a tie
    going to the even digit. *)
Definition format_1f (x : float) : string :=
  match Prim2SF x with
  | S754_nan => "nan"
  | S754_infinity s => if s then "-inf" else "inf"
  | S754_zero s => if s then "-0.0" else "0.0"
  | S754_finite s m e =>
      let num := Z.pos m * 10 * (if 0 <=? e then 2 ^ e else 1) in
      let den := if 0 <=? e then 1 else 2 ^ (- e) in
      let fl := num / den in
      let rem := num mod den in
      let tenths :=
        if 2 * rem <? den then fl
        else if den <? 2 * rem then fl + 1
        else if Z.even fl then fl else fl + 1 in
      (if s then "-" else "") +:+ pretty (tenths / 10) +:+ "." +:+ pretty (tenths mod 10)
  end.

(** ** The two stores *)

(** A TEXT value: its bytes, well-formed UTF-8 or not. *)
Inductive TEXT :=
  | Utf8 (s : string)
  | Malformed (bytes : string).

Definition bytes_of (t : TEXT) : string :=
  match t with
  | Utf8 s => s
  | Malformed bytes => bytes
  end.

(** Whether [sqlite3] can turn a column value into a [str] or [None]. *)
Definition decodable (v : option TEXT) : bool :=
  match v with
  | Some (Malformed _) => false
  | _ => true
  end.

(** A row of [ZAEANNOTATION], the columns the program reads. *)
Record annotation_row := {
  ZANNOTATIONSELECTEDTEXT : option TEXT;
  ZANNOTATIONCREATIONDATE : option number;
  ZANNOTATIONNOTE : option TEXT;
  ZANNOTATIONASSETID : option TEXT;
  ZANNOTATIONREPRESENTATIVETEXT : option TEXT;
  ZANNOTATIONTYPE : option Z;
  ZANNOTATIONISUNDERLINE : option Z;
  ZANNOTATIONDELETED : option Z
}.

(** A row of [ZBKLIBRARYASSET] or [ZBKLIBRARY]. *)
Record library_row := {
  ZTITLE : option TEXT;
  ZASSETID : option TEXT;
  ZBKASSETID : option TEXT;
  ZAUTHOR : option TEXT;
  ZREADINGPROGRESS : option number;
  ZLASTOPENDATE : option number;
  ZBOOKDESCRIPTION : option TEXT;
  ZGENRE : option TEXT
}.

(** A table of some schema version: [columns] names the columns it has; the
    field of a column the table lacks is never read, because a statement
    naming that column fails before any row is produced. *)
Record table (A : Type) := {
  columns : list string;
  rows : list A
}.
Arguments columns {A} _.
Arguments rows {A} _.

(** A database file, seen through the three tables the program queries;
    [None] is a table this schema version does not have. *)
Record database := {
  ZAEANNOTATION : option (table annotation_row);
  ZBKLIBRARYASSET : option (table library_row);
  ZBKLIBRARY : option (table library_row)
}.

(** What a path on disk holds. *)
Inductive file :=
  | Sqlite (db : database)
  | Document (content : string)
  | Directory.

(** ** The state of a run *)

(** The extractor object ([self]) together with the world it runs in: the
    file system, the machine, and a clock whose [ticks]-th reading answers
    the next call of [datetime.now()].  A connection holds the file it was
    opened on. *)
Record state := {
  annotation_db_path : string;
  library_db_path : option string;
  annotation_conn : option file;
  library_conn : option file;
  files : gmap string file;
  clock : nat -> datetime;
  ticks : nat;
  os : platform
}.

Definition set_annotation_conn (c : option file) (s : state) : state :=
  {| annotation_db_path := annotation_db_path s; library_db_path := library_db_path s;
     annotation_conn := c; library_conn := library_conn s;
     files := files s; clock := clock s; ticks := ticks s; os := os s |}.

Definition set_library_conn (c : option file) (s : state) : state :=
  {| annotation_db_path := annotation_db_path s; library_db_path := library_db_path s;
     annotation_conn := annotation_conn s; library_conn := c;
     files := files s; clock := clock s; ticks := ticks s; os := os s |}.

Definition set_files (fs : gmap string file) (s : state) : state :=
  {| annotation_db_path := annotation_db_path s; library_db_path := library_db_path s;
     annotation_conn := annotation_conn s; library_conn := library_conn s;
     files := fs; clock := clock s; ticks := ticks s; os := os s |}.

Definition tick (s : state) : state :=
  {| annotation_db_path := annotation_db_path s; library_db_path := library_db_path s;
     annotation_conn := annotation_conn s; library_conn := library_conn s;
     files := files s; clock := clock s; ticks := S (ticks s); os := os s |}.

Definition set_clock (c : nat -> datetime) (n : nat) (s : state) : state :=
  {| annotation_db_path := annotation_db_path s; library_db_path := library_db_path s;
     annotation_conn := annotation_conn s; library_conn := library_conn s;
     files := files s; clock := c; ticks := n; os := os s |}.

(** A method: it reads and updates the state and returns or raises. *)
Definition M (A : Type) : Type := state -> result A * state.

Definition ret {A} (a : A) : M A := fun s => (Ok a, s).

Definition raise {A} (e : exn) : M A := fun s => (Raise e, s).

Definition bind {A B} (m : M A) (k : A -> M B) : M B :=
  fun s => match m s with
           | (Ok a, s') => k a s'
           | (Raise e, s') => (Raise e, s')
           end.

Notation "x <- m ;; k" := (bind m (fun x => k))
  (at level 20, m at level 99, k at level 200, only parsing).

(** A pure computation that may raise, run inside a method. *)
Definition lift {A} (r : result A) : M A := fun s => (r, s).

(** The machine the run is on. *)
Definition the_platform : M platform := fun s => (Ok (os s), s).

(** [try: m  except sqlite3.OperationalError: h]. *)
Definition except_OperationalError {A} (m : M A) (h : M A) : M A :=
  fun s => match m s with
           | (Raise OperationalError, s') => h s'
           | r => r
           end.

(** ** SQL *)

(** Running a statement on a connection: a file that is not a database
    fails with [DatabaseError].  No connection is ever opened on a directory
    ([connect] below); it is given the same failure. *)
Definition database_of (conn : file) : result database :=
  match conn with
  | Sqlite db => Ok db
  | Document _ => Raise DatabaseError
  | Directory => Raise DatabaseError
  end.

Definition has_columns {A} (names : list string) (t : table A) : bool :=
  forallb (fun c => bool_decide (c ∈ columns t)) names.

(** The table [t] read through the columns [names]: a structural failure
    when the table or one of the columns does not exist. *)
Definition from_table {A} (t : option (table A)) (names : list string) : result (list A) :=
  match t with
  | None => Raise OperationalError
  | Some t => if has_columns names t then Ok (rows t) else Raise OperationalError
  end.

(** The place of a number or NULL in SQLite's order: NULL first, then the
    numbers by value, an INTEGER and a REAL compared exactly.  The second
    component is the value times 2^1074, a whole number for every double. *)
Definition sql_rank (v : option number) : Z * Z :=
  match v with
  | None => (0, 0)
  | Some (Integer z) => (2, z * 2 ^ 1074)
  | Some (Real x) =>
      match Prim2SF x with
      | S754_nan => (0, 0)               (* SQLite stores no NaN: it becomes NULL *)
      | S754_infinity true => (1, 0)
      | S754_infinity false => (3, 0)
      | S754_zero _ => (2, 0)
      | S754_finite s m e => (2, (if s then -1 else 1) * (Z.pos m * 2 ^ (e + 1074)))
      end
  end.

Definition sql_lt (a b : option number) : bool :=
  (fst (sql_rank a) <? fst (sql_rank b))
  || ((fst (sql_rank a) =? fst (sql_rank b)) && (snd (sql_rank a) <? snd (sql_rank b))).

(** [x] may stand before [y] in [ORDER BY key DESC]. *)
Definition sql_ge {A} (key : A -> option number) (x y : A) : Prop :=
  sql_lt (key x) (key y) = false.

(** [ORDER BY key DESC].  SQLite leaves the order of rows with equal keys
    open; insertion keeps them in table order, and the properties below hold
    of any list sorted by [sql_ge]. *)
Fixpoint insert_desc {A} (key : A -> option number) (x : A) (l : list A) : list A :=
  match l with
  | [] => [x]
  | y :: r => if sql_lt (key x) (key y) then y :: insert_desc key x r else x :: l
  end.

Definition order_by_desc {A} (key : A -> option number) (l : list A) : list A :=
  foldr (insert_desc key) [] l.

(** ** connect *)

(** [sqlite3.connect] refuses a path that is a directory; any other file
    it opens, whatever the file holds. *)
Definition connect : M unit := fun s =>
  match files s !! annotation_db_path s with
  | None => (Raise FileNotFoundError, s)
  | Some Directory => (Raise OperationalError, s)
  | Some f =>
      let s1 := set_annotation_conn (Some f) s in
      match library_db_path s with
      | Some p =>
          match files s !! p with
          | Some Directory => (Raise OperationalError, s1)
          | Some g => (Ok tt, set_library_conn (Some g) s1)
          | None => (Ok tt, s1)
          end
      | None => (Ok tt, s1)
      end
  end.

(** ** get_book_title *)

(** [SELECT ZTITLE FROM <table> WHERE <column> = ?] *)
Record title_query := {
  query_table : database -> option (table library_row);
  query_column : string;
  query_key : library_row -> option TEXT
}.

Definition queries : list title_query :=
  [ {| query_table := ZBKLIBRARYASSET; query_column := "ZASSETID"; query_key := ZASSETID |};
    {| query_table := ZBKLIBRARYASSET; query_column := "ZBKASSETID"; query_key := ZBKASSETID |};
    {| query_table := ZBKLIBRARY; query_column := "ZASSETID"; query_key := ZASSETID |} ].

(** [execute(query, (asset_id,)).fetchone()]: the [ZTITLE] of the first
    matching row, [None] when no row matches; a title that is not
    well-formed UTF-8 cannot be fetched. *)
Definition fetch_title (conn : file) (q : title_query) (asset_id : string)
  : result (option (option string)) :=
  match database_of conn with
  | Raise e => Raise e
  | Ok db =>
      match from_table (query_table q db) ["ZTITLE"; query_column q] with
      | Raise e => Raise e
      | Ok rs =>
          match head (filter (fun r => bytes_of <$> query_key q r = Some asset_id) rs) with
          | None => Ok None
          | Some r =>
              if decodable (ZTITLE r) then Ok (Some (bytes_of <$> ZTITLE r))
              else Raise OperationalError
          end
      end
  end.

(** The loop over [queries]: a fetched row ends it with [result[0]], a
    structural failure or an empty answer moves on to the next query. *)
Fixpoint try_queries (conn : file) (asset_id : string) (qs : list title_query)
  : result (option string) :=
  match qs with
  | [] => Ok None
  | q :: rest =>
      match fetch_title conn q asset_id with
      | Ok (Some title) => Ok title
      | Ok None => try_queries conn asset_id rest
      | Raise OperationalError => try_queries conn asset_id rest
      | Raise e => Raise e
      end
  end.

Definition get_book_title (asset_id : string) : M (option string) := fun s =>
  match library_conn s with
  | None => (Ok None, s)
  | Some conn =>
      match try_queries conn asset_id queries with
      | Ok title => (Ok title, s)
      | Raise _ => (Ok None, s)      (* except Exception: print, return None *)
      end
  end.

(** ** Highlights *)

Record Highlight := {
  text : string;
  created_at : datetime;
  book_title : string;
  chapter : option string;
  note : option string
}.

(** [datetime.now()] *)
Definition now : M datetime := fun s => (Ok (clock s (ticks s)), tick s).

(** [datetime.fromtimestamp(t)] *)
Definition fromtimestamp (t : number) : M datetime := fun s =>
  match local_datetime (os s) t with
  | inl d => (Ok d, s)
  | inr e => (Raise (exn_of_date_error e), s)
  end.

(** [fromtimestamp(t + 978307200) if t else now()] *)
Definition convert_timestamp (stored : option number) : M datetime :=
  match stored with
  | Some t => if truthy_number stored then fromtimestamp (plus_epoch_offset t) else now
  | None => now
  end.

(** A row of the primary query, under the aliases of its SELECT list; the
    WHERE clause makes [row_text] a string.  The text fields hold the bytes
    of the columns; [row_decodable] tells whether [sqlite3] can hand the
    row to Python, which it cannot when one of them is not well-formed. *)
Record annotation := {
  row_text : string;
  row_created_at : option number;
  row_note : option string;
  row_book_id : option string;
  row_representative_text : option string;
  row_annotation_type : option Z;
  row_is_underline : option Z;
  row_decodable : bool
}.

Definition select_annotation (r : annotation_row) : option annotation :=
  match ZANNOTATIONSELECTEDTEXT r with
  | Some t =>
      if bool_decide (ZANNOTATIONDELETED r = Some 0) then
        Some {| row_text := bytes_of t;
                row_created_at := ZANNOTATIONCREATIONDATE r;
                row_note := bytes_of <$> ZANNOTATIONNOTE r;
                row_book_id := bytes_of <$> ZANNOTATIONASSETID r;
                row_representative_text := bytes_of <$> ZANNOTATIONREPRESENTATIVETEXT r;
                row_annotation_type := ZANNOTATIONTYPE r;
                row_is_underline := ZANNOTATIONISUNDERLINE r;
                row_decodable :=
                  decodable (ZANNOTATIONSELECTEDTEXT r) && decodable (ZANNOTATIONNOTE r)
                  && decodable (ZANNOTATIONASSETID r)
                  && decodable (ZANNOTATIONREPRESENTATIVETEXT r) |}
      else None
  | None => None
  end.

Definition annotation_columns : list string :=
  [ "ZANNOTATIONSELECTEDTEXT"; "ZANNOTATIONCREATIONDATE"; "ZANNOTATIONNOTE";
    "ZANNOTATIONASSETID"; "ZANNOTATIONREPRESENTATIVETEXT"; "ZANNOTATIONTYPE";
    "ZANNOTATIONISUNDERLINE"; "ZANNOTATIONDELETED" ].

(** The primary query of [get_highlights]. *)
Definition primary_query (conn : file) : result (list annotation) :=
  match database_of conn with
  | Raise e => Raise e
  | Ok db =>
      match from_table (ZAEANNOTATION db) annotation_columns with
      | Raise e => Raise e
      | Ok rs => Ok (order_by_desc row_created_at (omap select_annotation rs))
      end
  end.

Definition annotation_text (row : annotation) : string :=
  if truthy_str (row_representative_text row)
  then row_text row +:+ nl +:+ nl +:+ "Context: " +:+ fmt_str (row_representative_text row)
  else row_text row.

Definition annotation_note (row : annotation) : string :=
  let note := if truthy_str (row_note row) then fmt_str (row_note row) else "" in
  match row_annotation_type row with
  | Some _ =>
      let note_prefix := if truthy_num (row_is_underline row) then "Underline" else "Highlight" in
      if truthy_str (Some note) then note_prefix +:+ nl +:+ note else note_prefix
  | None => note
  end.

(** The test of line 171: [book_title and current_book_title and
    book_title.lower() not in current_book_title.lower()]. *)
Definition skipped (machine : platform) (book_title current_book_title : option string) : bool :=
  match book_title, current_book_title with
  | Some f, Some t =>
      truthy_str book_title && truthy_str current_book_title
      && negb (contains (lower machine f) (lower machine t))
  | _, _ => false
  end.

(** [current_book_title or f"Book ID: {book_id}" if book_id else 'Unknown Book'] *)
Definition shown_title (book_id current_book_title : option string) : string :=
  if truthy_str book_id then
    if truthy_str current_book_title then fmt_str current_book_title
    else "Book ID: " +:+ fmt_str book_id
  else "Unknown Book".

(** [current_book_title]: resolved only for a row that has a book id. *)
Definition resolve_title (row : annotation) : M (option string) :=
  match row_book_id row with
  | Some id => if truthy_str (row_book_id row) then get_book_title id else ret None
  | None => ret None
  end.

(** The body of the loop over the primary rows: [None] is [continue]. *)
Definition process_row (filter_title : option string) (row : annotation)
  : M (option Highlight) :=
  created <- convert_timestamp (row_created_at row) ;;
  current_book_title <- resolve_title row ;;
  machine <- the_platform ;;
  if skipped machine filter_title current_book_title then ret None
  else ret (Some {| text := annotation_text row;
                    created_at := created;
                    book_title := shown_title (row_book_id row) current_book_title;
                    chapter := None;
                    note := Some (annotation_note row) |}).

(** The cursor hands over its next row, or fails on a row it cannot
    decode. *)
Definition fetch (can_decode : bool) : M unit :=
  lift (if can_decode then Ok tt else Raise OperationalError).

Fixpoint collect (filter_title : option string) (rs : list annotation)
  (highlights : list Highlight) : M (list Highlight) :=
  match rs with
  | [] => ret highlights
  | row :: rest =>
      _ <- fetch (row_decodable row) ;;
      h <- process_row filter_title row ;;
      collect filter_title rest
        (match h with Some h => highlights ++ [h] | None => highlights end)
  end.

(** ** _get_book_info *)

(** A row of the fallback query, under the aliases of its SELECT list; the
    WHERE clause makes [info_book_title] a string.  The text fields hold the
    bytes of the columns, [info_decodable] tells whether all of them are
    well-formed. *)
Record book_info := {
  info_book_title : string;
  info_author : option string;
  info_progress : option number;
  info_last_opened : option number;
  info_description : option string;
  info_genre : option string;
  info_decodable : bool
}.

Definition select_book_info (r : library_row) : option book_info :=
  match ZTITLE r with
  | Some t =>
      Some {| info_book_title := bytes_of t;
              info_author := bytes_of <$> ZAUTHOR r;
              info_progress := ZREADINGPROGRESS r;
              info_last_opened := ZLASTOPENDATE r;
              info_description := bytes_of <$> ZBOOKDESCRIPTION r;
              info_genre := bytes_of <$> ZGENRE r;
              info_decodable :=
                decodable (ZTITLE r) && decodable (ZAUTHOR r)
                && decodable (ZBOOKDESCRIPTION r) && decodable (ZGENRE r) |}
  | None => None
  end.

Definition book_info_columns : list string :=
  [ "ZTITLE"; "ZAUTHOR"; "ZREADINGPROGRESS"; "ZLASTOPENDATE"; "ZBOOKDESCRIPTION"; "ZGENRE" ].

(** The fallback query: with a filter, [AND LOWER(ZTITLE) LIKE LOWER('%filter%')]
    and no ordering; without one, [ORDER BY ZLASTOPENDATE DESC]. *)
Definition book_info_query (conn : file) (filter_title : option string)
  : result (list book_info) :=
  match database_of conn with
  | Raise e => Raise e
  | Ok db =>
      match from_table (ZBKLIBRARYASSET db) book_info_columns with
      | Raise e => Raise e
      | Ok rs =>
          let selected := omap select_book_info rs in
          match filter_title with
          | Some f =>
              if truthy_str filter_title
              then Ok (filter (fun r => like (ascii_lower ("%" +:+ f +:+ "%"))
                                             (ascii_lower (info_book_title r)))
                              selected)
              else Ok (order_by_desc info_last_opened selected)
          | None => Ok (order_by_desc info_last_opened selected)
          end
      end
  end.

Definition book_info_text (row : book_info) : string :=
  match info_progress row with
  | Some p => "Progress: " +:+ format_1f (times_100 p) +:+ "%"
  | None => "No progress data"
  end.

Definition book_info_note (row : book_info) : option string :=
  if truthy_str (info_author row) || truthy_str (info_description row)
  then Some ("Author: " +:+ fmt_str (info_author row) +:+ nl +:+
             "Description: " +:+ fmt_str (info_description row))
  else None.

Definition book_info_highlight (row : book_info) : M Highlight :=
  created <- convert_timestamp (info_last_opened row) ;;
  ret {| text := book_info_text row;
         created_at := created;
         book_title := info_book_title row;
         chapter := if truthy_str (info_genre row) then info_genre row else None;
         note := book_info_note row |}.

Fixpoint collect_book_info (rs : list book_info) (highlights : list Highlight)
  : M (list Highlight) :=
  match rs with
  | [] => ret highlights
  | row :: rest =>
      _ <- fetch (info_decodable row) ;;
      h <- book_info_highlight row ;;
      collect_book_info rest (highlights ++ [h])
  end.

Definition _get_book_info (filter_title : option string) : M (list Highlight) := fun s =>
  match library_conn s with
  | None => (Raise AttributeError, s)
  | Some conn =>
      (rs <- lift (book_info_query conn filter_title) ;;
       collect_book_info rs []) s
  end.

(** ** get_highlights *)

(** [if not self.annotation_conn: self.connect()] *)
Definition ensure_connected : M unit := fun s =>
  match annotation_conn s with
  | None => connect s
  | Some _ => (Ok tt, s)
  end.

(** [self.annotation_conn.execute(...)]: the connection in use. *)
Definition the_annotation_conn : M file := fun s =>
  match annotation_conn s with
  | Some conn => (Ok conn, s)
  | None => (Raise AttributeError, s)
  end.

(** The [try] block: [Some highlights] is [return highlights], [None] is
    falling out of the block after the no-highlights message. *)
Definition primary (filter_title : option string) (conn : file) : M (option (list Highlight)) :=
  rs <- lift (primary_query conn) ;;
  highlights <- collect filter_title rs [] ;;
  match highlights with
  | [] => ret None
  | _ :: _ => ret (Some highlights)
  end.

Definition get_highlights (filter_title : option string) : M (list Highlight) :=
  _ <- ensure_connected ;;
  conn <- the_annotation_conn ;;
  _ <- lift (database_of conn) ;;           (* the listing of sqlite_master *)
  found <- except_OperationalError (primary filter_title conn) (ret None) ;;
  match found with
  | Some highlights => ret highlights
  | None => _get_book_info filter_title
  end.

(** ** export_to_markdown *)

(** One call of [f.write]. *)
Inductive chunk :=
  | Header (title : string)
  | Quote (text : string)
  | Note (note : string)
  | Chapter (chapter : string)
  | Date (date : string).

Definition render (c : chunk) : string :=
  match c with
  | Header title => nl +:+ "## " +:+ title +:+ nl +:+ nl
  | Quote text => "> " +:+ text +:+ nl
  | Note note => nl +:+ "Note: " +:+ note +:+ nl
  | Chapter chapter => nl +:+ "- Chapter: " +:+ chapter +:+ nl
  | Date date => "- Date: " +:+ date +:+ nl +:+ nl
  end.

Fixpoint write_highlights (machine : platform) (current_book : option string)
  (hs : list Highlight) : list chunk :=
  match hs with
  | [] => []
  | h :: rest =>
      let differs := negb (bool_decide (Some (book_title h) = current_book)) in
      let current_book' := if differs then Some (book_title h) else current_book in
      (if differs then [Header (book_title h)] else []) ++
      [Quote (text h)] ++
      (if truthy_str (note h) then [Note (fmt_str (note h))] else []) ++
      [Chapter (if truthy_str (chapter h) then fmt_str (chapter h) else "N/A");
       Date (strftime machine (created_at h))] ++
      write_highlights machine current_book' rest
  end.

Definition document (machine : platform) (hs : list Highlight) : string :=
  String.concat "" (map render (write_highlights machine None hs)).

(** [open(output_path, 'w')] creates or truncates the file, unless the
    path is a directory or the machine refuses; the writes follow. *)
Definition write_document (output_path : string) (hs : list Highlight) : M unit := fun s =>
  match files s !! output_path with
  | Some Directory => (Raise OSError, s)
  | _ =>
      match open_failure (os s) output_path with
      | Some e => (Raise (exn_of_open_error e), s)
      | None =>
          (Ok tt, set_files (<[output_path := Document (document (os s) hs)]> (files s)) s)
      end
  end.

Definition export_to_markdown (output_path : string) (filter_title : option string) : M unit :=
  highlights <- get_highlights filter_title ;;
  write_document output_path highlights.

(** ** _get_database_path and the constructor *)

(** [a / b] on two paths, [b] relative; the root keeps its single slash. *)
Definition joinpath (a b : string) : string :=
  if String.eqb a "/" then a +:+ b else a +:+ "/" +:+ b.

(** What the search sees of the disk: the home directory, the entries of
    [~/Library/Containers] (name and [is_dir()]), and the answer of
    [Path.glob] for a container path and a pattern, in the order the paths
    are yielded. *)
Record disk := {
  home : string;
  containers : list (string * bool);
  glob : string -> string -> list string
}.

Definition annotation_patterns : list string :=
  [ "**/BKAnnotation/*.sqlite"; "**/AEAnnotation/*.sqlite" ].

Definition library_patterns : list string :=
  [ "**/com.apple.iBooksX/Data/Documents/BKLibrary/*.sqlite";
    "**/com.apple.iBooks/Data/Documents/BKLibrary/*.sqlite";
    "**/BKLibrary/*.sqlite" ].

(** [d.is_dir() and any(x in d.name.lower() for x in ["book", "bk", "annotation"])] *)
Definition is_book_container (machine : platform) (d : string * bool) : bool :=
  snd d && existsb (fun x => contains x (lower machine (fst d))) ["book"; "bk"; "annotation"].

(** The loops over one list of patterns in one container: every path
    found is assigned to the variable, [found] being its value before. *)
Definition search (w : disk) (container : string) (patterns : list string)
  (found : option string) : option string :=
  foldl (fun found pattern =>
           foldl (fun _ db_path => Some db_path) found (glob w container pattern))
        found patterns.

Definition containers_path (w : disk) : string := joinpath (home w) "Library/Containers".

Definition default_annotation_db (w : disk) : string :=
  joinpath (home w)
    "Library/Containers/com.apple.iBooksX/Data/Documents/AEAnnotation/annotations.sqlite".

Definition _get_database_path (machine : platform) (w : disk) : string * option string :=
  let book_containers :=
    filter (fun d => is_book_container machine d = true) (containers w) in
  let found :=
    foldl (fun dbs d =>
             let container := joinpath (containers_path w) (fst d) in
             (search w container annotation_patterns (fst dbs),
              search w container library_patterns (snd dbs)))
          (None, None) book_containers in
  (match fst found with
   | Some annotation_db => annotation_db
   | None => default_annotation_db w
   end,
   snd found).

(** [BookHighlightExtractor()] on the machine [machine], in a world with
    the files [fs] and the clock [c]. *)
Definition __init__ (machine : platform) (w : disk) (fs : gmap string file)
  (c : nat -> datetime) : state :=
  {| annotation_db_path := fst (_get_database_path machine w);
     library_db_path := snd (_get_database_path machine w);
     annotation_conn := None;
     library_conn := None;
     files := fs;
     clock := c;
     ticks := 0;
     os := machine |}.

(** ** main *)

Fixpoint dropwhile {A} (p : A -> bool) (l : list A) : list A :=
  match l with
  | [] => []
  | x :: r => if p x then dropwhile p r else l
  end.

(** [s.strip()] *)
Definition strip (machine : platform) (s : string) : string :=
  String.concat ""
    (rev (dropwhile (char_isspace machine)
            (rev (dropwhile (char_isspace machine) (characters s))))).

(** [c.isalnum() or c in (' ', '-', '_')] *)
Definition safe_char (machine : platform) (ch : string) : bool :=
  char_isalnum machine ch || String.eqb ch " " || String.eqb ch "-" || String.eqb ch "_".

(** ["".join(c for c in book_title if c.isalnum() or c in (' ', '-', '_'))] *)
Definition safe_title (machine : platform) (book_title : string) : string :=
  String.concat "" (filter (fun ch => safe_char machine ch = true) (characters book_title)).

Definition output_path (machine : platform) (w : disk) (book_title : string) : string :=
  if truthy_str (Some book_title)
  then joinpath (joinpath (home w) "Desktop")
         ("book_highlights_" +:+ safe_title machine book_title +:+ ".md")
  else joinpath (joinpath (home w) "Desktop") "book_highlights_all.md".

(** The last message [main] prints: the success line, or the line of the
    handler that caught the exception. *)
Inductive report :=
  | Exported (output_path : string)     (* Highlights exported successfully to ... *)
  | Error (e : exn)                     (* except FileNotFoundError *)
  | Database_error (e : exn)            (* except sqlite3.Error *)
  | Unexpected_error (e : exn).         (* except Exception *)

(** The [try] statement of [main] around one export. *)
Definition report_of (output_path : string) (r : result unit * state) : report * state :=
  match r with
  | (Ok _, s) => (Exported output_path, s)
  | (Raise FileNotFoundError, s) => (Error FileNotFoundError, s)
  | (Raise OperationalError, s) => (Database_error OperationalError, s)
  | (Raise DatabaseError, s) => (Database_error DatabaseError, s)
  | (Raise e, s) => (Unexpected_error e, s)
  end.

(** [main()], [line] being what [input] returns. *)
Definition main (machine : platform) (w : disk) (line : string) (fs : gmap string file)
  (c : nat -> datetime) : report * state :=
  let extractor := __init__ machine w fs c in
  let book_title := strip machine line in
  report_of (output_path machine w book_title)
    (export_to_markdown (output_path machine w book_title) (Some book_title) extractor).

(** * The document, as the specification words it *)







(** * The title filter, as the specification words it *)

(** A row is dropped when a filter that is not empty is given and the
    row's title is a string that is not empty and does not contain the
    filter, both taken through [str.lower]. *)
Definition excluded (machine : platform) (filter_title title : option string) : Prop :=
  exists f t, filter_title = Some f /\ f <> "" /\ title = Some t /\ t <> ""
              /\ contains (lower machine f) (lower machine t) = false.

(** The record of a row whose title was resolved to [title]. *)
Definition record_of (row : annotation) (title : option string) (h : Highlight) : Prop :=
  text h = annotation_text row
  /\ book_title h = shown_title (row_book_id row) title
  /\ chapter h = None
  /\ note h = Some (annotation_note row).

(** [hs] holds, in the order of the rows, one record for each row that is
    not dropped, and nothing else. *)
Inductive filtered (machine : platform) (filter_title : option string)
  (title_of : annotation -> option string) : list annotation -> list Highlight -> Prop :=
  | filtered_nil : filtered machine filter_title title_of [] []
  | filtered_drop row rows hs :
      excluded machine filter_title (title_of row) ->
      filtered machine filter_title title_of rows hs ->
      filtered machine filter_title title_of (row :: rows) hs
  | filtered_keep row rows h hs :
      ~ excluded machine filter_title (title_of row) ->
      record_of row (title_of row) h ->
      filtered machine filter_title title_of rows hs ->
      filtered machine filter_title title_of (row :: rows) (h :: hs).

(** The title the resolver answers for a row in state [s]. *)
Definition title_in (s : state) (row : annotation) : option string :=
  match fst (resolve_title row s) with
  | Ok title => title
  | Raise _ => None
  end.

(** * The date of a record, as the specification words it *)

(** [created] is the date of a record whose row stores [stored], on
    [machine], when the clock reads [reading]: for a timestamp [t] that is
    neither NULL nor zero, the local date [datetime.fromtimestamp] gives for
    [t + 978307200] seconds after the 1970 epoch, the sum being exact for an
    INTEGER and the sum of two doubles for a REAL; for NULL and for zero (0,
    0.0 or -0.0), the reading of the clock. *)
Definition created_from (machine : platform) (stored : option number)
  (reading created : datetime) : Prop :=
  match stored with
  | Some (Integer z) =>
      if z =? 0 then created = reading
      else local_datetime machine (Integer (z + 978307200)) = inl created
  | Some (Real x) =>
      if PrimFloat.eqb x 0 then created = reading
      else local_datetime machine (Real (x + 978307200)%float) = inl created
  | None => created = reading
  end.

(** * The order of the dates

    The query orders the rows by the stored numbers; the records carry the
    local dates the machine gives to those numbers. *)

(** On [machine], the dates of the rows [rs] follow the stored numbers:
    for any two rows with a number each, the first not below the second in the
    order of the query, whose numbers the machine turns into dates, the date
    of the first is not before the date of the second.  A local clock that is
    set back between the two instants, as at the end of daylight saving time,
    breaks this. *)
Definition keeps_order {A} (machine : platform) (key : A -> option number) (rs : list A)
  : bool :=
  forallb (fun x =>
    forallb (fun y =>
      match key x, key y with
      | Some t, Some u =>
          match local_datetime machine (plus_epoch_offset t),
                local_datetime machine (plus_epoch_offset u) with
          | inl d, inl e => sql_lt (key x) (key y) || (e <=? d)
          | _, _ => true
          end
      | _, _ => true
      end) rs) rs.

(** * The exceptions of the extraction, as their messages name them *)



(** * Runs that do not depend on the time of the run *)

(** The primary path yields no record without a filter: the query fails
    on the schema, selects no row, or meets a row that cannot be decoded. *)
Definition falls_back (conn : file) : Prop :=
  primary_query conn = Raise OperationalError
  \/ exists rs, primary_query conn = Ok rs
                /\ (rs = [] \/ Exists (fun r => row_decodable r = false) rs).

(** Every timestamp that an export without a filter writes as a date is
    there and is not zero: the creation date of every annotation the primary
    query selects, when the primary path yields the records, and the
    last-opened date of every book the fallback query selects, when the run
    falls back on the library. *)
Definition dated_for_export (s : state) : Prop :=
  forall s1 conn,
    ensure_connected s = (Ok tt, s1) -> annotation_conn s1 = Some conn ->
    (~ falls_back conn ->
     forall rs, primary_query conn = Ok rs ->
                Forall (fun r => truthy_number (row_created_at r) = true) rs)
    /\ (falls_back conn ->
        forall library rs,
          library_conn s1 = Some library -> book_info_query library None = Ok rs ->
          Forall (fun r => truthy_number (info_last_opened r) = true) rs).

(** Two states that differ at most in the clock and its readings so far. *)
Definition same_but_clock (s1 s2 : state) : Prop :=
  annotation_db_path s1 = annotation_db_path s2
  /\ library_db_path s1 = library_db_path s2
  /\ annotation_conn s1 = annotation_conn s2
  /\ library_conn s1 = library_conn s2
  /\ files s1 = files s2
  /\ os s1 = os s2.

(** Run from [s1] and from [s2], the method [m] ends the same way, in two
    states that differ at most in the clock. *)
Definition clock_blind {A} (m : M A) (s1 s2 : state) : Prop :=
  fst (m s1) = fst (m s2) /\ same_but_clock (snd (m s1)) (snd (m s2)).

(** The text of the document at a path, empty when there is none. *)
Definition read_document (s : state) (path : string) : string :=
  match files s !! path with
  | Some (Document content) => content
  | _ => ""
  end.

(** * Observations on the search, the queries and the document *)

(** Every path the search finds for [patterns], in the order it finds
    them: the book containers in listing order, the patterns in order, the
    paths in the order [glob] yields them. *)
Definition matches (machine : platform) (w : disk) (patterns : list string) : list string :=
  concat (map (fun d => concat (map (glob w (joinpath (containers_path w) (fst d))) patterns))
              (filter (fun d => is_book_container machine d = true) (containers w))).


(** The writes for one record, its section header apart. *)
Definition record_chunks (machine : platform) (h : Highlight) : list chunk :=
  [Quote (text h)] ++
  (if truthy_str (note h) then [Note (fmt_str (note h))] else []) ++
  [Chapter (if truthy_str (chapter h) then fmt_str (chapter h) else "N/A");
   Date (strftime machine (created_at h))].

Definition is_header (c : chunk) : bool :=
  match c with
  | Header _ => true
  | _ => false
  end.

(** The rows of [ZAEANNOTATION] the primary query keeps: the selected
    text is not NULL and the row is not deleted. *)
Definition kept (r : annotation_row) : Prop :=
  ZANNOTATIONSELECTEDTEXT r <> None /\ ZANNOTATIONDELETED r = Some 0.

(** The title shown for a row whose title was not resolved. *)
Definition placeholder (book_id : option string) : string :=
  match book_id with
  | Some id => if String.eqb id "" then "Unknown Book" else "Book ID: " +:+ id
  | None => "Unknown Book"
  end.

(** What no method of the extractor changes: the disk, the two paths and
    the machine. *)
Definition same_world (s s' : state) : Prop :=
  files s' = files s
  /\ annotation_db_path s' = annotation_db_path s
  /\ library_db_path s' = library_db_path s
  /\ os s' = os s.

Definition keeps_world {A} (m : M A) : Prop :=
  forall s, same_world s (snd (m s)).

(** * Sample stores and machines

    A small library and annotation store, and a few machines, used to run
    the model. *)

Module Sample.

(** The whole number nearest to a double, a tie going to the even one. *)
Definition round_half_even (x : float) : Z :=
  match Prim2SF x with
  | S754_finite s m e =>
      let sign := if s then -1 else 1 in
      if 0 <=? e then sign * (Z.pos m * 2 ^ e)
      else
        let den := 2 ^ (- e) in
        let fl := Z.pos m / den in
        let rem := Z.pos m mod den in
        sign * (if 2 * rem <? den then fl
                else if den <? 2 * rem then fl + 1
                else if Z.even fl then fl else fl + 1)
  | _ => 0
  end.

(** The whole part of a double, towards zero. *)
Definition truncate (x : float) : Z :=
  match Prim2SF x with
  | S754_finite s m e =>
      (if s then -1 else 1) * (if 0 <=? e then Z.pos m * 2 ^ e else Z.pos m / 2 ^ (- e))
  | _ => 0
  end.

(** A timestamp as whole seconds and microseconds, the way CPython
    splits it: the fraction times a million, rounded half to even. *)
Definition timeval (t : number) : Z * Z :=
  match t with
  | Integer z => (z, 0)
  | Real x =>
      let intpart := truncate x in
      let us := round_half_even ((x - float_of_Z intpart) * 1000000)%float in
      if 1000000 <=? us then (intpart + 1, us - 1000000)
      else if us <? 0 then (intpart - 1, us + 1000000)
      else (intpart, us)
  end.

(** The local date of a whole number of seconds and microseconds, on a
    64-bit Linux machine whose time zone is [offset] seconds east of UTC at
    the instant given: [time_t] holds 64 bits, [localtime] fails beyond the
    years an [int] counts, and [datetime] holds the years 1 to 9999 (the
    date one day earlier, which is computed as well, must be in range
    too). *)
Definition local_of (offset : Z -> Z) (seconds us : Z) : datetime + date_error :=
  if (seconds <? - 2 ^ 63) || (2 ^ 63 <=? seconds) then inr TimeOverflow
  else if (seconds <? - 67768040609740800) || (67768036191676799 <? seconds)
  then inr LocaltimeFailed
  else if (- 62135510400 <=? seconds + offset seconds)
          && (seconds + offset seconds <=? 253402300799)
  then inl ((seconds + offset seconds) * 1000000 + us)
  else inr InvalidDate.

(** [datetime.fromtimestamp] on such a machine. *)
Definition zone_datetime (offset : Z -> Z) (t : number) : datetime + date_error :=
  match t with
  | Real x =>
      match Prim2SF x with
      | S754_nan => inr InvalidDate
      | S754_infinity _ => inr TimeOverflow
      | _ => let '(seconds, us) := timeval t in local_of offset seconds us
      end
  | Integer z => local_of offset z 0
  end.

(** A machine on UTC whose files can all be written; the samples hold
    ASCII text only, so that its Unicode tables are never consulted. *)
Definition utc : platform :=
  {| local_datetime := zone_datetime (fun _ => 0);
     pads_year := true;
     unicode_lower := ascii_lower;
     unicode_isalnum := fun _ => false;
     unicode_isspace := fun _ => false;
     open_failure := fun _ => None |}.


(** A machine like [utc] on which the desktop directory is missing. *)
Definition no_desktop : platform :=
  {| local_datetime := zone_datetime (fun _ => 0);
     pads_year := true;
     unicode_lower := ascii_lower;
     unicode_isalnum := fun _ => false;
     unicode_isspace := fun _ => false;
     open_failure := fun _ => Some NoSuchDirectory |}.

Definition ann (t : string) (created : option Z) (asset : option string) : annotation_row :=
  {| ZANNOTATIONSELECTEDTEXT := Some (Utf8 t);
     ZANNOTATIONCREATIONDATE := Integer <$> created;
     ZANNOTATIONNOTE := None;
     ZANNOTATIONASSETID := Utf8 <$> asset;
     ZANNOTATIONREPRESENTATIVETEXT := None;
     ZANNOTATIONTYPE := None;
     ZANNOTATIONISUNDERLINE := None;
     ZANNOTATIONDELETED := Some 0 |}.

Definition book (title asset author description : option string) (opened : option Z)
  : library_row :=
  {| ZTITLE := Utf8 <$> title;
     ZASSETID := Utf8 <$> asset;
     ZBKASSETID := None;
     ZAUTHOR := Utf8 <$> author;
     ZREADINGPROGRESS := None;
     ZLASTOPENDATE := Integer <$> opened;
     ZBOOKDESCRIPTION := Utf8 <$> description;
     ZGENRE := None |}.

Definition annotations (rs : list annotation_row) : file :=
  Sqlite {| ZAEANNOTATION := Some {| columns := annotation_columns; rows := rs |};
            ZBKLIBRARYASSET := None;
            ZBKLIBRARY := None |}.

Definition library (rs : list library_row) : file :=
  Sqlite {| ZAEANNOTATION := None;
            ZBKLIBRARYASSET := Some {| columns := "ZASSETID" :: book_info_columns; rows := rs |};
            ZBKLIBRARY := None |}.

(** A database of an older schema: no [ZAEANNOTATION] table. *)
Definition no_annotation_table : file :=
  Sqlite {| ZAEANNOTATION := None; ZBKLIBRARYASSET := None; ZBKLIBRARY := None |}.

(** A fresh extractor (no connection yet) over the two stores. *)
Definition fresh (a l : file) (c : nat -> Z) : state :=
  {| annotation_db_path := "annotations.sqlite";
     library_db_path := Some "library.sqlite";
     annotation_conn := None;
     library_conn := None;
     files := <["annotations.sqlite" := a]> (<["library.sqlite" := l]> ∅);
     clock := c;
     ticks := 0;
     os := utc |}.

(** A fresh extractor whose annotation store is not on disk. *)
Definition missing_store : state :=
  {| annotation_db_path := "annotations.sqlite";
     library_db_path := None;
     annotation_conn := None;
     library_conn := None;
     files := <["book_highlights_all.md" := Document "old"]> ∅;
     clock := fun _ => 1700000000000000;
     ticks := 0;
     os := utc |}.

(** An extractor that is already connected to the two stores. *)
Definition connected (a l : file) (c : nat -> Z) : state :=
  {| annotation_db_path := "annotations.sqlite";
     library_db_path := Some "library.sqlite";
     annotation_conn := Some a;
     library_conn := Some l;
     files := <["annotations.sqlite" := a]> (<["library.sqlite" := l]> ∅);
     clock := c;
     ticks := 0;
     os := utc |}.

(** The same extractor on another machine. *)
Definition on (machine : platform) (s : state) : state :=
  {| annotation_db_path := annotation_db_path s; library_db_path := library_db_path s;
     annotation_conn := annotation_conn s; library_conn := library_conn s;
     files := files s; clock := clock s; ticks := ticks s; os := machine |}.

Definition row (t : string) (created : option Z) (asset : option string) : annotation :=
  {| row_text := t;
     row_created_at := Integer <$> created;
     row_note := None;
     row_book_id := asset;
     row_representative_text := None;
     row_annotation_type := None;
     row_is_underline := None;
     row_decodable := true |}.

(** A library of another schema version: [ZBKLIBRARYASSET] keys its rows
    by [ZBKASSETID] and has no [ZASSETID] column. *)
Definition library_by_bkassetid (rs : list library_row) : file :=
  Sqlite {| ZAEANNOTATION := None;
            ZBKLIBRARYASSET := Some {| columns := "ZBKASSETID" :: book_info_columns; rows := rs |};
            ZBKLIBRARY := None |}.

Definition dune_by_bkassetid : library_row :=
  {| ZTITLE := Some (Utf8 "Dune");
     ZASSETID := None;
     ZBKASSETID := Some (Utf8 "A1");
     ZAUTHOR := Some (Utf8 "Frank Herbert");
     ZREADINGPROGRESS := None;
     ZLASTOPENDATE := Some (Integer 700000000);
     ZBOOKDESCRIPTION := None;
     ZGENRE := None |}.

Definition info (author description : option string) : book_info :=
  {| info_book_title := "Dune";
     info_author := author;
     info_progress := None;
     info_last_opened := Some (Integer 700000000);
     info_description := description;
     info_genre := None;
     info_decodable := true |}.

(** Two annotations of one book: a dated one and one whose creation date
    is NULL. *)
Definition dated_and_undated : list annotation_row :=
  [ ann "dated" (Some 100) (Some "A1"); ann "undated" None (Some "A1") ].

Definition two_dated : list annotation_row :=
  [ ann "older" (Some 100) (Some "A1"); ann "newer" (Some 200) (Some "A1") ].


(** A library whose table has both key columns: one row is found by
    [ZASSETID] and has an empty title, another is found by [ZBKASSETID]. *)
Definition library_two_keys : file :=
  Sqlite {| ZAEANNOTATION := None;
            ZBKLIBRARYASSET :=
              Some {| columns := "ZASSETID" :: "ZBKASSETID" :: book_info_columns;
                      rows := [ book (Some "") (Some "A1") None None None;
                                dune_by_bkassetid ] |};
            ZBKLIBRARY := None |}.

Definition dune : library_row :=
  book (Some "Dune") (Some "A1") (Some "Frank Herbert") None (Some 700000000).

Definition untitled : library_row :=
  book (Some "") (Some "A2") (Some "") None (Some 600000000).

Definition foundation : library_row :=
  book (Some "Foundation") (Some "F1") (Some "Isaac Asimov") None (Some 650000000).

(** A book that was never opened. *)
Definition unopened : library_row :=
  book (Some "Emma") (Some "E1") (Some "Jane Austen") None None.

Definition at_noon (n : nat) : Z := 1700000000000000 + Z.of_nat n.
Definition at_night (n : nat) : Z := 1700040000000000 + Z.of_nat n.

(** A disk with three container entries: the Books application, a
    browser, and the Books agent. *)
Definition ibooks : string := "/Users/me/Library/Containers/com.apple.iBooksX".

Definition mac (found : string -> string -> list string) : disk :=
  {| home := "/Users/me";
     containers := [ ("com.apple.iBooksX", true); ("com.apple.Safari", true);
                     ("com.apple.BKAgentService", true) ];
     glob := found |}.

Definition books_glob (container pattern : string) : list string :=
  if String.eqb container ibooks then
    if String.eqb pattern "**/AEAnnotation/*.sqlite"
    then [ ibooks +:+ "/Data/Documents/AEAnnotation/AEAnnotation_v1.sqlite" ]
    else if String.eqb pattern "**/BKLibrary/*.sqlite"
    then [ ibooks +:+ "/Data/Documents/BKLibrary/BKLibrary_v1.sqlite" ]
    else []
  else [].

(** The same disk with database files inside the browser's container. *)
Definition browser_glob (container pattern : string) : list string :=
  if String.eqb container "/Users/me/Library/Containers/com.apple.Safari"
  then [ container +:+ "/Data/BKAnnotation/history.sqlite" ]
  else books_glob container pattern.


(** A disk on which the search finds nothing. *)
Definition empty_disk : disk :=
  {| home := "/Users/me"; containers := []; glob := fun _ _ => [] |}.

End Sample.

(** * Properties *)

(** ** The model on small inputs *)

Example strftime_epoch : strftime Sample.utc 0 = "1970-01-01 00:00:00".
Proof. vm_compute. reflexivity. Qed.

Example strftime_2001 : strftime Sample.utc (EPOCH_OFFSET * 1000000) = "2001-01-01 00:00:00".
Proof. vm_compute. reflexivity. Qed.

Example strftime_leap : strftime Sample.utc 1709254799999999 = "2024-03-01 00:59:59".
Proof. vm_compute. reflexivity. Qed.

Example like_wild : like "%a_c%" "xxAbCyy" = true /\ like "%a_c%" "xxacyy" = false.
Proof. vm_compute. split; reflexivity. Qed.

Example contains_sub : contains "un" "dune" = true /\ contains "x" "dune" = false.
Proof. vm_compute. split; reflexivity. Qed.

Example format_1f_half :
  format_1f (times_100 (Real 0.125)) = "12.5" /\ format_1f (times_100 (Integer 3)) = "300.0".
Proof. vm_compute. split; reflexivity. Qed.

(** The double nearest to 0.0015, times 100, is below 0.15. *)
Example format_1f_inexact : format_1f (times_100 (Real 0x1.89374bc6a7efap-10)) = "0.1".
Proof. vm_compute. reflexivity. Qed.

Example fromtimestamp_refused :
  local_datetime Sample.utc (Integer 253402300800) = inr InvalidDate
  /\ local_datetime Sample.utc (Integer (10 ^ 17)) = inr LocaltimeFailed
  /\ local_datetime Sample.utc (Integer (2 ^ 63)) = inr TimeOverflow.
Proof. vm_compute. repeat split; reflexivity. Qed.

Example fromtimestamp_fraction :
  local_datetime Sample.utc (plus_epoch_offset (Real 100.5)) = inl 978307300500000
  /\ local_datetime Sample.utc (Real (-1.5)) = inl (-1500000).
Proof. vm_compute. split; reflexivity. Qed.

Example strip_spaces : strip Sample.utc "  Dune " = "Dune".
Proof. vm_compute. reflexivity. Qed.

Example safe_title_punctuation :
  safe_title Sample.utc "Crime & Punishment!" = "Crime  Punishment".
Proof. vm_compute. reflexivity. Qed.

Example sample_document :
  document Sample.utc
    [ {| text := "spice"; created_at := 978307300000000; book_title := "Dune";
         chapter := None; note := Some "" |} ]
  = nl +:+ "## Dune" +:+ nl +:+ nl +:+ "> spice" +:+ nl +:+ nl +:+ "- Chapter: N/A" +:+ nl
    +:+ "- Date: 2001-01-01 00:01:40" +:+ nl +:+ nl.
Proof. vm_compute. reflexivity. Qed.

(** Without a desktop directory the export fails when it opens the
    output file, and writes nothing. *)
Example export_without_desktop :
  let s := Sample.on Sample.no_desktop
             (Sample.connected (Sample.annotations Sample.two_dated)
                (Sample.library [Sample.dune]) Sample.at_noon) in
  fst (export_to_markdown "/Users/me/Desktop/book_highlights_all.md" None s)
    = Raise FileNotFoundError
  /\ files (snd (export_to_markdown "/Users/me/Desktop/book_highlights_all.md" None s))
     = files s.
Proof. intros s. split; reflexivity. Qed.

(** ** The method monad *)

Lemma bind_Ok {A B} (m : M A) (k : A -> M B) s a s' :
  m s = (Ok a, s') -> bind m k s = k a s'.
Proof. intros H. unfold bind. rewrite H. reflexivity. Qed.

Lemma bind_Raise {A B} (m : M A) (k : A -> M B) s e s' :
  m s = (Raise e, s') -> bind m k s = (Raise e, s').
Proof. intros H. unfold bind. rewrite H. reflexivity. Qed.

Lemma bind_inv {A B} (m : M A) (k : A -> M B) s b s2 :
  bind m k s = (Ok b, s2) -> exists a s1, m s = (Ok a, s1) /\ k a s1 = (Ok b, s2).
Proof.
  unfold bind. destruct (m s) as [[a|e] s1]; intros H.
  - exists a, s1. split; [reflexivity | exact H].
  - discriminate H.
Qed.

Lemma bind_raise_inv {A B} (m : M A) (k : A -> M B) s e s2 :
  bind m k s = (Raise e, s2) ->
  m s = (Raise e, s2) \/ exists a s1, m s = (Ok a, s1) /\ k a s1 = (Raise e, s2).
Proof.
  unfold bind. destruct (m s) as [[a|e0] s1]; intros H; [right; eauto|].
  left. injection H as <- <-. reflexivity.
Qed.

Lemma bind_ext {A B} (m m' : M A) (k k' : A -> M B) s :
  m s = m' s -> (forall a s1, k a s1 = k' a s1) -> bind m k s = bind m' k' s.
Proof.
  intros Hm Hk. unfold bind. rewrite Hm. destruct (m' s) as [[a|e] s1]; [apply Hk | reflexivity].
Qed.

(** ** connect *)

Lemma connect_not_found s e s' :
  connect s = (Raise e, s') ->
  (e = FileNotFoundError /\ s' = s /\ files s !! annotation_db_path s = None)
  \/ (e = OperationalError
      /\ (files s !! annotation_db_path s = Some Directory
          \/ exists p, library_db_path s = Some p /\ files s !! p = Some Directory)).
Proof.
  unfold connect. destruct (files s !! annotation_db_path s) as [f|] eqn:Hf.
  - destruct f as [db|content|].
    + destruct (library_db_path s) as [p|]; [|discriminate].
      destruct (files s !! p) as [[]|] eqn:Hp; try discriminate.
      intros H. injection H as <- _. right. eauto.
    + destruct (library_db_path s) as [p|]; [|discriminate].
      destruct (files s !! p) as [[]|] eqn:Hp; try discriminate.
      intros H. injection H as <- _. right. eauto.
    + intros H. injection H as <- _. right. auto.
  - intros H. injection H as <- <-. left. auto.
Qed.

Lemma connect_missing s :
  files s !! annotation_db_path s = None -> connect s = (Raise FileNotFoundError, s).
Proof. intros H. unfold connect. rewrite H. reflexivity. Qed.

(** C8. [connect] raises [FileNotFoundError] exactly when the annotation
    store path is not on disk; a fresh extractor then aborts
    [export_to_markdown] with that error before the output file is opened:
    the file system, and the whole state, are as they were. *)
Theorem connect_store_not_found (s : state) :
  ((exists s', connect s = (Raise FileNotFoundError, s'))
     <-> files s !! annotation_db_path s = None)
  /\ (forall output_path filter_title,
        annotation_conn s = None ->
        files s !! annotation_db_path s = None ->
        export_to_markdown output_path filter_title s = (Raise FileNotFoundError, s)
        /\ files (snd (export_to_markdown output_path filter_title s)) !! output_path
           = files s !! output_path).
Proof.
  split.
  - split.
    + intros [s' H]. apply connect_not_found in H as [(_ & _ & H)|(H & _)];
        [exact H | discriminate H].
    + intros H. exists s. apply connect_missing, H.
  - intros output_path filter_title Hconn Hfile.
    assert (E : export_to_markdown output_path filter_title s = (Raise FileNotFoundError, s)).
    { unfold export_to_markdown, get_highlights.
      apply bind_Raise. apply bind_Raise.
      unfold ensure_connected. rewrite Hconn. apply connect_missing, Hfile. }
    split; [exact E | rewrite E; reflexivity].
Qed.

Lemma connect_store_not_found_witness :
  export_to_markdown "book_highlights_all.md" None Sample.missing_store
    = (Raise FileNotFoundError, Sample.missing_store)
  /\ files (snd (export_to_markdown "book_highlights_all.md" None Sample.missing_store))
       !! "book_highlights_all.md" = Some (Document "old").
Proof.
  destruct (proj2 (connect_store_not_found Sample.missing_store)
              "book_highlights_all.md" None) as [E F];
    [reflexivity | reflexivity |].
  split; [exact E | rewrite F; reflexivity].
Defined.

(** ** get_highlights: the primary path and the fallback *)

Lemma primary_query_database conn :
  (exists rs, primary_query conn = Ok rs) \/ primary_query conn = Raise OperationalError ->
  exists db, database_of conn = Ok db.
Proof.
  unfold primary_query. destruct (database_of conn) as [db|e] eqn:E.
  - eauto.
  - destruct conn; simpl in E; try discriminate; injection E as <-;
      intros [[rs H]|H]; discriminate.
Qed.

(** Once connected, [get_highlights] is the [try] block followed by the
    fallback. *)
Lemma get_highlights_connected filter_title s s1 conn :
  ensure_connected s = (Ok tt, s1) ->
  annotation_conn s1 = Some conn ->
  (exists db, database_of conn = Ok db) ->
  get_highlights filter_title s =
  (found <- except_OperationalError (primary filter_title conn) (ret None) ;;
   match found with
   | Some highlights => ret highlights
   | None => _get_book_info filter_title
   end) s1.
Proof.
  intros Hc Hconn [db Hdb]. unfold get_highlights.
  rewrite (bind_Ok _ _ _ _ _ Hc).
  assert (Hthe : the_annotation_conn s1 = (Ok conn, s1))
    by (unfold the_annotation_conn; rewrite Hconn; reflexivity).
  rewrite (bind_Ok _ _ _ _ _ Hthe).
  assert (Hl : lift (database_of conn) s1 = (Ok db, s1))
    by (unfold lift; rewrite Hdb; reflexivity).
  rewrite (bind_Ok _ _ _ _ _ Hl). reflexivity.
Qed.

(** C6. When the primary query raises a structural error, [get_highlights]
    returns what [_get_book_info] returns for the same filter on the same
    (connected) state: same outcome, same final state. *)
Theorem get_highlights_structural_fallback
  (filter_title : option string) (s s1 : state) (conn : file) :
  ensure_connected s = (Ok tt, s1) ->
  annotation_conn s1 = Some conn ->
  primary_query conn = Raise OperationalError ->
  get_highlights filter_title s = _get_book_info filter_title s1.
Proof.
  intros Hc Hconn Hq.
  rewrite (get_highlights_connected filter_title s s1 conn Hc Hconn)
    by (apply primary_query_database; right; exact Hq).
  assert (Hp : except_OperationalError (primary filter_title conn) (ret None) s1
               = (Ok None, s1)).
  { unfold except_OperationalError, primary, bind, lift. rewrite Hq. reflexivity. }
  rewrite (bind_Ok _ _ _ _ _ Hp). reflexivity.
Qed.

Lemma get_highlights_structural_fallback_witness :
  let s := Sample.fresh Sample.no_annotation_table (Sample.library [Sample.dune]) Sample.at_noon in
  get_highlights (Some "dune") s = _get_book_info (Some "dune") (snd (ensure_connected s))
  /\ (book_title <$> match fst (get_highlights (Some "dune") s) with Ok hs => hs | Raise _ => [] end)
     = ["Dune"].
Proof.
  intros s. split.
  - apply (get_highlights_structural_fallback (Some "dune") s (snd (ensure_connected s))
             Sample.no_annotation_table); reflexivity.
  - vm_compute. reflexivity.
Defined.

(** C1 (amended). When the primary query runs without a structural error
    and the loop over its rows builds [highlights], [get_highlights] returns
    exactly [highlights] if that list is not empty, and otherwise returns
    what [_get_book_info] returns for the same filter. *)
Theorem get_highlights_primary
  (filter_title : option string) (s s1 s2 : state) (conn : file)
  (rs : list annotation) (highlights : list Highlight) :
  ensure_connected s = (Ok tt, s1) ->
  annotation_conn s1 = Some conn ->
  primary_query conn = Ok rs ->
  collect filter_title rs [] s1 = (Ok highlights, s2) ->
  get_highlights filter_title s =
  match highlights with
  | [] => _get_book_info filter_title s2
  | _ :: _ => (Ok highlights, s2)
  end.
Proof.
  intros Hc Hconn Hq Hl.
  rewrite (get_highlights_connected filter_title s s1 conn Hc Hconn)
    by (apply primary_query_database; left; eauto).
  assert (Hp : except_OperationalError (primary filter_title conn) (ret None) s1
               = (Ok match highlights with [] => None | _ :: _ => Some highlights end, s2)).
  { unfold except_OperationalError, primary.
    assert (Hl' : lift (primary_query conn) s1 = (Ok rs, s1))
      by (unfold lift; rewrite Hq; reflexivity).
    rewrite (bind_Ok _ _ _ _ _ Hl'), (bind_Ok _ _ _ _ _ Hl).
    destruct highlights; reflexivity. }
  rewrite (bind_Ok _ _ _ _ _ Hp). destruct highlights; reflexivity.
Qed.

Lemma get_highlights_primary_witness :
  let s := Sample.fresh (Sample.annotations [Sample.ann "spice" (Some 100) (Some "A1")])
             (Sample.library [Sample.dune]) Sample.at_noon in
  get_highlights None s =
  (Ok [ {| text := "spice"; created_at := 978307300000000; book_title := "Dune";
           chapter := None; note := Some "" |} ],
   snd (ensure_connected s)).
Proof.
  intros s.
  apply (get_highlights_primary None s (snd (ensure_connected s)) (snd (ensure_connected s))
           (Sample.annotations [Sample.ann "spice" (Some 100) (Some "A1")])
           [ Sample.row "spice" (Some 100) (Some "A1") ]
           [ {| text := "spice"; created_at := 978307300000000; book_title := "Dune";
                chapter := None; note := Some "" |} ]);
    reflexivity.
Defined.

(** C1, as stated, fails: with an empty [ZAEANNOTATION] table the primary
    query succeeds and yields no row, yet [get_highlights] does not return
    the empty sequence: it returns the record [_get_book_info] builds. *)
Lemma get_highlights_empty_primary_delegates :
  let s := Sample.fresh (Sample.annotations []) (Sample.library [Sample.dune]) Sample.at_noon in
  primary_query (Sample.annotations []) = Ok []
  /\ fst (collect None [] [] (snd (ensure_connected s))) = Ok []
  /\ fst (get_highlights None s) <> Ok []
  /\ get_highlights None s = _get_book_info None (snd (ensure_connected s))
  /\ (book_title <$> match fst (get_highlights None s) with Ok hs => hs | Raise _ => [] end)
     = ["Dune"].
Proof.
  intros s. split; [reflexivity|]. split; [reflexivity|].
  split; [|split; [reflexivity | vm_compute; reflexivity]].
  vm_compute. discriminate.
Qed.

(** ** Row normalisation *)

Lemma get_book_title_total asset_id s :
  exists title, get_book_title asset_id s = (Ok title, s).
Proof.
  unfold get_book_title. destruct (library_conn s) as [conn|]; [|eauto].
  destruct (try_queries conn asset_id queries); eauto.
Qed.

Lemma resolve_title_total row s :
  exists title, resolve_title row s = (Ok title, s).
Proof.
  unfold resolve_title. destruct (row_book_id row) as [id|]; [|unfold ret; eauto].
  destruct (truthy_str (Some id)); [apply get_book_title_total | unfold ret; eauto].
Qed.

Lemma convert_timestamp_inv stored s dt s' :
  convert_timestamp stored s = (Ok dt, s') ->
  (truthy_number stored = true /\ s' = s
   /\ exists t, stored = Some t /\ local_datetime (os s) (plus_epoch_offset t) = inl dt)
  \/ (truthy_number stored = false /\ s' = tick s /\ dt = clock s (ticks s)).
Proof.
  unfold convert_timestamp. destruct stored as [t|].
  - destruct (truthy_number (Some t)) eqn:E.
    + unfold fromtimestamp.
      destruct (local_datetime (os s) (plus_epoch_offset t)) as [d|e] eqn:Ed;
        intros H; [|discriminate].
      injection H as <- <-. left. eauto.
    + unfold now. intros H. injection H as <- <-. right. auto.
  - unfold now. intros H. injection H as <- <-. right. auto.
Qed.

(** What the loop body does once the timestamp is converted. *)
Lemma process_row_inv filter_title row s r s' :
  process_row filter_title row s = (Ok r, s') ->
  exists created title,
    convert_timestamp (row_created_at row) s = (Ok created, s')
    /\ resolve_title row s' = (Ok title, s')
    /\ r = if skipped (os s') filter_title title then None
           else Some {| text := annotation_text row;
                        created_at := created;
                        book_title := shown_title (row_book_id row) title;
                        chapter := None;
                        note := Some (annotation_note row) |}.
Proof.
  unfold process_row. intros H.
  apply bind_inv in H as (created & s1 & Hc & H).
  apply bind_inv in H as (title & s2 & Ht & H).
  destruct (resolve_title_total row s1) as (title' & Ht').
  rewrite Ht' in Ht. injection Ht as -> <-.
  apply bind_inv in H as (machine & s3 & Hm & H).
  unfold the_platform in Hm. injection Hm as <- <-.
  exists created, title.
  destruct (skipped (os s1) filter_title title) eqn:E; unfold ret in H;
    injection H as <- <-; rewrite E; auto.
Qed.

Lemma convert_timestamp_world stored s r s' :
  convert_timestamp stored s = (r, s') ->
  os s' = os s /\ library_conn s' = library_conn s /\ annotation_conn s' = annotation_conn s
  /\ files s' = files s /\ clock s' = clock s.
Proof.
  unfold convert_timestamp, fromtimestamp, now.
  destruct stored as [t|].
  - destruct (truthy_number (Some t)).
    + destruct (local_datetime (os s) (plus_epoch_offset t));
        intros H; injection H as _ <-; auto.
    + intros H; injection H as _ <-; auto.
  - intros H; injection H as _ <-; auto.
Qed.

Lemma convert_timestamp_created stored s created s' :
  convert_timestamp stored s = (Ok created, s') ->
  created_from (os s) stored (clock s (ticks s)) created.
Proof.
  intros Hc. unfold created_from.
  apply convert_timestamp_inv in Hc as [(Ht & _ & t & Hs & Hd)|(Ht & _ & ->)].
  - rewrite Hs in *. destruct t as [z|x]; simpl in Ht.
    + destruct (z =? 0); [discriminate | exact Hd].
    + destruct (PrimFloat.eqb x 0); [discriminate | exact Hd].
  - destruct stored as [[z|x]|]; [| |reflexivity]; simpl in Ht.
    + destruct (z =? 0); [reflexivity | discriminate].
    + destruct (PrimFloat.eqb x 0); [reflexivity | discriminate].
Qed.

(** The loop body leaves the machine and the clock as they are, and the
    clock does not go back. *)
Lemma process_row_clock filter_title row s r s' :
  process_row filter_title row s = (Ok r, s') ->
  os s' = os s /\ clock s' = clock s /\ (ticks s <= ticks s')%nat.
Proof.
  intros H. apply process_row_inv in H as (created & title & Hc & _).
  apply convert_timestamp_inv in Hc as [(_ & -> & _)|(_ & -> & _)]; simpl; auto.
Qed.

(** Every record the loop appends has the date of its row. *)
Lemma collect_created filter_title rs :
  forall acc s hs s',
    collect filter_title rs acc s = (Ok hs, s') ->
    exists new,
      hs = acc ++ new
      /\ Forall (fun h => exists row n,
                   row ∈ rs /\ (ticks s <= n)%nat /\ text h = annotation_text row
                   /\ created_from (os s) (row_created_at row) (clock s n) (created_at h))
                new.
Proof.
  induction rs as [|row rest IH]; intros acc s hs s' H.
  - simpl in H. unfold ret in H. injection H as <- <-.
    exists []. rewrite app_nil_r. split; [reflexivity | constructor].
  - cbn [collect] in H. apply bind_inv in H as ([] & s0 & Hf & H).
    unfold fetch, lift in Hf. injection Hf as _ <-.
    apply bind_inv in H as (r & s1 & Hp & H).
    pose proof (process_row_clock _ _ _ _ _ Hp) as (Hos & Hclock & Hticks).
    apply process_row_inv in Hp as (created & title & Hc & _ & Hr).
    apply convert_timestamp_created in Hc.
    apply IH in H as (new & -> & Hnew).
    assert (Hnew' : Forall (fun h => exists row0 n,
                row0 ∈ row :: rest /\ (ticks s <= n)%nat /\ text h = annotation_text row0
                /\ created_from (os s) (row_created_at row0) (clock s n) (created_at h)) new).
    { eapply Forall_impl; [exact Hnew|]. intros h (row0 & n & Hin & Hn & Hx & Hd).
      exists row0, n. rewrite <- Hos, <- Hclock.
      split; [right; exact Hin|]. split; [lia|]. split; assumption. }
    destruct (skipped (os s1) filter_title title); subst r.
    + exists new. split; [reflexivity | exact Hnew'].
    + eexists (_ :: new). split; [rewrite <- app_assoc; reflexivity|].
      constructor; [|exact Hnew'].
      exists row, (ticks s). split; [left|]. split; [lia|]. split; [reflexivity | exact Hc].
Qed.

(** C2 (amended). A Highlight built from a primary row whose stored
    timestamp is neither null nor zero has for [created_at] the local date
    [datetime.fromtimestamp] answers for the stored number plus 978307200:
    a whole number of seconds for an INTEGER, the sum of two doubles for a
    REAL.  A row whose stored timestamp is null or zero (0, 0.0 or -0.0)
    gets the reading of the clock at the moment of conversion.  This holds
    of the loop body, and so of every record the loop over the rows of the
    primary query builds. *)
Theorem process_row_created_at (filter_title : option string) (s : state) :
  (forall row s' h,
      process_row filter_title row s = (Ok (Some h), s') ->
      match row_created_at row with
      | Some (Integer z) =>
          if z =? 0 then created_at h = clock s (ticks s)
          else local_datetime (os s) (Integer (z + 978307200)) = inl (created_at h)
      | Some (Real x) =>
          if PrimFloat.eqb x 0 then created_at h = clock s (ticks s)
          else local_datetime (os s) (Real (x + 978307200)%float) = inl (created_at h)
      | None => created_at h = clock s (ticks s)
      end)
  /\ (forall rs hs s',
        collect filter_title rs [] s = (Ok hs, s') ->
        Forall (fun h => exists row n,
                  row ∈ rs /\ (ticks s <= n)%nat /\ text h = annotation_text row
                  /\ created_from (os s) (row_created_at row) (clock s n) (created_at h))
               hs).
Proof.
  split.
  - intros row s' h H. apply process_row_inv in H as (created & title & Hc & _ & Hr).
    destruct (skipped (os s') filter_title title); [discriminate|].
    injection Hr as ->. simpl. exact (convert_timestamp_created _ _ _ _ Hc).
  - intros rs hs s' H. apply collect_created in H as (new & -> & Hnew). exact Hnew.
Qed.

Lemma process_row_created_at_witness :
  let s := Sample.connected (Sample.annotations []) (Sample.library [Sample.dune]) Sample.at_noon in
  let row := {| row_text := "spice"; row_created_at := Some (Real 100.5); row_note := None;
                row_book_id := Some "A1"; row_representative_text := None;
                row_annotation_type := None; row_is_underline := None;
                row_decodable := true |} in
  let h := {| text := "spice"; created_at := 978307300500000; book_title := "Dune";
              chapter := None; note := Some "" |} in
  process_row None row s = (Ok (Some h), s)
  /\ local_datetime (os s) (Real (100.5 + 978307200)%float) = inl (created_at h).
Proof.
  intros s row h.
  assert (H : process_row None row s = (Ok (Some h), s)) by reflexivity.
  split; [exact H|].
  exact (proj1 (process_row_created_at None s) row s h H).
Defined.

(** C2, as stated, fails: a stored timestamp of 0, whole or real, is not
    null, yet the Highlight gets the clock reading, not the date of
    [0 + 978307200]. *)
Lemma process_row_zero_timestamp :
  let s := Sample.connected (Sample.annotations []) (Sample.library [Sample.dune]) Sample.at_noon in
  let row t := {| row_text := "spice"; row_created_at := Some t; row_note := None;
                  row_book_id := Some "A1"; row_representative_text := None;
                  row_annotation_type := None; row_is_underline := None;
                  row_decodable := true |} in
  let created t := created_at <$> match fst (process_row None (row t) s) with
                                  | Ok h => h
                                  | Raise _ => None
                                  end in
  created (Integer 0) = Some 1700000000000000
  /\ created (Real 0) = Some 1700000000000000
  /\ created (Real (-0)) = Some 1700000000000000
  /\ local_datetime (os s) (Integer (0 + 978307200)) = inl 978307200000000
  /\ 1700000000000000 <> 978307200000000.
Proof.
  intros s row created. repeat split; try (vm_compute; reflexivity). discriminate.
Qed.

(** ** The title filter *)

Lemma contains_empty hay : contains "" hay = true.
Proof. destruct hay; reflexivity. Qed.

Lemma resolve_title_conn row s1 s2 :
  library_conn s1 = library_conn s2 ->
  fst (resolve_title row s1) = fst (resolve_title row s2).
Proof.
  intros H. unfold resolve_title. destruct (row_book_id row) as [id|]; [|reflexivity].
  destruct (truthy_str (Some id)); [|reflexivity].
  unfold get_book_title. rewrite H.
  destruct (library_conn s2) as [conn|]; [|reflexivity].
  destruct (try_queries conn id queries); reflexivity.
Qed.

Lemma resolve_title_tick row s :
  resolve_title row (tick s) = (fst (resolve_title row s), tick s).
Proof.
  destruct (resolve_title_total row (tick s)) as (title & E). rewrite E.
  rewrite <- (resolve_title_conn row (tick s) s eq_refl), E. reflexivity.
Qed.

Lemma skipped_excluded machine filter_title title :
  skipped machine filter_title title = true <-> excluded machine filter_title title.
Proof.
  unfold skipped, excluded. split.
  - destruct filter_title as [f|]; [|discriminate].
    destruct title as [t|]; [|discriminate]. simpl.
    intros H. apply andb_true_iff in H as [H Hc]. apply andb_true_iff in H as [Hf Ht].
    exists f, t. repeat split.
    + apply String.eqb_neq. destruct (String.eqb f ""); [discriminate | reflexivity].
    + apply String.eqb_neq. destruct (String.eqb t ""); [discriminate | reflexivity].
    + destruct (contains (lower machine f) (lower machine t)); [discriminate | reflexivity].
  - intros (f & t & -> & Hf & -> & Ht & Hc). simpl. rewrite Hc.
    apply String.eqb_neq in Hf, Ht. rewrite Hf, Ht. reflexivity.
Qed.

Lemma filtered_ext machine filter_title title1 title2 rs hs :
  (forall row, title1 row = title2 row) ->
  filtered machine filter_title title1 rs hs -> filtered machine filter_title title2 rs hs.
Proof.
  intros E. induction 1 as [|row rows hs Hx _ IH|row rows h hs Hx Hr _ IH].
  - constructor.
  - apply filtered_drop; [rewrite <- E; exact Hx | exact IH].
  - apply filtered_keep; [rewrite <- E; exact Hx | rewrite <- E; exact Hr | exact IH].
Qed.

(** The loop appends, to what it was given, the records of the rows it
    does not drop. *)
Lemma collect_filtered filter_title rs :
  forall acc s hs s',
    collect filter_title rs acc s = (Ok hs, s') ->
    exists new, hs = acc ++ new /\ filtered (os s) filter_title (title_in s) rs new.
Proof.
  induction rs as [|row rest IH]; intros acc s hs s' H.
  - simpl in H. unfold ret in H. injection H as <- <-.
    exists []. rewrite app_nil_r. split; [reflexivity | constructor].
  - simpl in H. apply bind_inv in H as ([] & s0 & Hf & H).
    unfold fetch, lift in Hf. injection Hf as _ <-.
    apply bind_inv in H as (r & s1 & Hp & H).
    apply process_row_inv in Hp as (created & title & Hc & Ht & Hr).
    apply convert_timestamp_world in Hc as (Hos & Hlib & _).
    assert (Htitle : title_in s row = title).
    { unfold title_in. rewrite <- (resolve_title_conn row s1 s Hlib), Ht. reflexivity. }
    apply IH in H as (new & -> & Hnew).
    rewrite Hos in Hnew, Hr.
    apply (filtered_ext _ _ _ (title_in s)) in Hnew;
      [|intros row0; unfold title_in; rewrite (resolve_title_conn row0 s1 s Hlib); reflexivity].
    destruct (skipped (os s) filter_title title) eqn:E; subst r.
    + exists new. split; [reflexivity|].
      apply filtered_drop; [rewrite Htitle; apply skipped_excluded, E | exact Hnew].
    + eexists (_ :: new). split; [rewrite <- app_assoc; reflexivity|].
      apply filtered_keep; [| |exact Hnew].
      * rewrite Htitle, <- skipped_excluded, E. discriminate.
      * rewrite Htitle. repeat split.
Qed.

(** C4 (amended). When the loop of [get_highlights] has gone through the
    rows of the primary query, the records it has built are, in the order of
    the rows, those of the rows that are not dropped, and a row is dropped
    exactly when a non-empty filter is given, the row's title was resolved to
    a non-empty string, and that string does not contain the filter, both
    taken through [str.lower]; a row whose title was not resolved, or was
    resolved to the empty string, is kept whatever the filter.  These
    records are what [get_highlights] returns when there is one at least. *)
Theorem collect_filter
  (filter_title : option string) (rs : list annotation) (s s' : state) (hs : list Highlight) :
  collect filter_title rs [] s = (Ok hs, s') ->
  filtered (os s) filter_title (title_in s) rs hs
  /\ (forall s0 conn,
        ensure_connected s0 = (Ok tt, s) -> annotation_conn s = Some conn ->
        primary_query conn = Ok rs -> hs <> [] ->
        get_highlights filter_title s0 = (Ok hs, s')).
Proof.
  intros H. split.
  - apply collect_filtered in H as (new & -> & Hnew). exact Hnew.
  - intros s0 conn Hc Hconn Hq Hne.
    rewrite (get_highlights_connected filter_title s0 s conn Hc Hconn)
      by (apply primary_query_database; left; eauto).
    assert (Hp : except_OperationalError (primary filter_title conn) (ret None) s
                 = (Ok (Some hs), s')).
    { unfold except_OperationalError, primary.
      assert (Hl : lift (primary_query conn) s = (Ok rs, s))
        by (unfold lift; rewrite Hq; reflexivity).
      rewrite (bind_Ok _ _ _ _ _ Hl), (bind_Ok _ _ _ _ _ H).
      destruct hs; [congruence | reflexivity]. }
    rewrite (bind_Ok _ _ _ _ _ Hp). reflexivity.
Qed.

Lemma collect_filter_witness :
  let s := Sample.connected
             (Sample.annotations [ Sample.ann "older" (Some 100) (Some "F1");
                                   Sample.ann "newer" (Some 200) (Some "A1") ])
             (Sample.library [Sample.dune; Sample.foundation]) Sample.at_noon in
  let newer := {| text := "newer"; created_at := 978307400000000; book_title := "Dune";
                  chapter := None; note := Some "" |} in
  filtered Sample.utc (Some "dune") (title_in s)
    [Sample.row "newer" (Some 200) (Some "A1"); Sample.row "older" (Some 100) (Some "F1")]
    [newer]
  /\ get_highlights (Some "dune") s = (Ok [newer], s).
Proof.
  intros s newer.
  destruct (collect_filter (Some "dune")
              [Sample.row "newer" (Some 200) (Some "A1");
               Sample.row "older" (Some 100) (Some "F1")] s s [newer] eq_refl) as [F G].
  split; [exact F|].
  apply (G s (Sample.annotations [ Sample.ann "older" (Some 100) (Some "F1");
                                   Sample.ann "newer" (Some 200) (Some "A1") ]));
    [reflexivity | reflexivity | reflexivity | discriminate].
Defined.

(** C4, as stated, fails: the title of the row is resolved, to the empty
    string, and does not contain the filter, yet the row is not left out; it
    is returned under its placeholder title. *)
Lemma get_highlights_empty_title_kept :
  let s := Sample.connected (Sample.annotations [Sample.ann "spice" (Some 100) (Some "A1")])
             Sample.library_two_keys Sample.at_noon in
  fst (get_book_title "A1" s) = Ok (Some "")
  /\ contains (lower (os s) "dune") (lower (os s) "") = false
  /\ fst (get_highlights (Some "dune") s)
     = Ok [ {| text := "spice"; created_at := 978307300000000; book_title := "Book ID: A1";
               chapter := None; note := Some "" |} ].
Proof. intros s. repeat split; vm_compute; reflexivity. Qed.

(** ** get_book_title *)

Lemma try_queries_skip conn asset_id skipped_qs rest :
  Forall (fun q => fetch_title conn q asset_id = Raise OperationalError
                   \/ fetch_title conn q asset_id = Ok None) skipped_qs ->
  try_queries conn asset_id (skipped_qs ++ rest) = try_queries conn asset_id rest.
Proof.
  induction 1 as [|q qs [Hq|Hq] _ IH]; simpl; [reflexivity | | ]; rewrite Hq; exact IH.
Qed.

(** C3 (amended). [get_book_title] tries its queries in order and skips a
    query that fails structurally or matches no row; it returns the [ZTITLE]
    of the first row fetched, whatever that value is (it may be null or the
    empty string); it returns [None] when there is no library connection or
    when every query fails or matches no row.  It never raises and leaves
    the state as it was. *)
Theorem get_book_title_first_row :
  (forall asset_id s,
      library_conn s = None -> get_book_title asset_id s = (Ok None, s))
  /\ (forall asset_id s conn skipped_qs q rest title,
        library_conn s = Some conn ->
        queries = skipped_qs ++ q :: rest ->
        Forall (fun q' => fetch_title conn q' asset_id = Raise OperationalError
                          \/ fetch_title conn q' asset_id = Ok None) skipped_qs ->
        fetch_title conn q asset_id = Ok (Some title) ->
        get_book_title asset_id s = (Ok title, s))
  /\ (forall asset_id s conn,
        library_conn s = Some conn ->
        Forall (fun q => fetch_title conn q asset_id = Raise OperationalError
                         \/ fetch_title conn q asset_id = Ok None) queries ->
        get_book_title asset_id s = (Ok None, s)).
Proof.
  split; [|split].
  - intros asset_id s H. unfold get_book_title. rewrite H. reflexivity.
  - intros asset_id s conn skipped_qs q rest title Hconn Hqs Hskip Hq.
    unfold get_book_title. rewrite Hconn, Hqs, (try_queries_skip _ _ _ _ Hskip).
    simpl. rewrite Hq. reflexivity.
  - intros asset_id s conn Hconn Hall.
    unfold get_book_title. rewrite Hconn.
    rewrite <- (app_nil_r queries), (try_queries_skip _ _ _ _ Hall). reflexivity.
Qed.

Lemma get_book_title_first_row_witness :
  let s := Sample.connected (Sample.annotations [])
             (Sample.library_by_bkassetid [Sample.dune_by_bkassetid]) Sample.at_noon in
  get_book_title "A1" s = (Ok (Some "Dune"), s).
Proof.
  intros s.
  apply (proj1 (proj2 get_book_title_first_row) "A1" s
           (Sample.library_by_bkassetid [Sample.dune_by_bkassetid])
           [ {| query_table := ZBKLIBRARYASSET; query_column := "ZASSETID";
                query_key := ZASSETID |} ]
           {| query_table := ZBKLIBRARYASSET; query_column := "ZBKASSETID";
              query_key := ZBKASSETID |}
           [ {| query_table := ZBKLIBRARY; query_column := "ZASSETID";
                query_key := ZASSETID |} ]
           (Some "Dune")).
  - reflexivity.
  - reflexivity.
  - constructor; [left; vm_compute; reflexivity | constructor].
  - vm_compute. reflexivity.
Defined.

(** C3, as stated, fails: the first query fetches a row whose [ZTITLE] is
    the empty string and [get_book_title] returns it, an empty title, although
    the second query would have found the title Dune. *)
Lemma get_book_title_empty_title :
  let s := Sample.connected (Sample.annotations []) Sample.library_two_keys Sample.at_noon in
  fst (get_book_title "A1" s) = Ok (Some "")
  /\ (forall q, queries !! 1%nat = Some q ->
                fetch_title Sample.library_two_keys q "A1" = Ok (Some (Some "Dune"))).
Proof.
  intros s. split; [vm_compute; reflexivity|].
  intros q Hq. injection Hq as <-. vm_compute. reflexivity.
Qed.

(** ** The note of a book-information record *)

Lemma startswith_app p s : startswith p (p +:+ s) = true.
Proof.
  induction p as [|c p IH]; simpl; [reflexivity|].
  rewrite Ascii.eqb_refl. exact IH.
Qed.

Lemma contains_here p s : contains p (p +:+ s) = true.
Proof.
  destruct (p +:+ s) eqn:E; simpl; rewrite <- E, startswith_app; reflexivity.
Qed.

Lemma contains_app_r p a s : contains p s = true -> contains p (a +:+ s) = true.
Proof.
  intros H. induction a as [|c a IH]; simpl; [exact H|].
  rewrite IH. apply orb_true_r.
Qed.

Lemma book_info_highlight_note row s h s' :
  book_info_highlight row s = (Ok h, s') -> note h = book_info_note row.
Proof.
  unfold book_info_highlight. intros H.
  apply bind_inv in H as (created & s1 & _ & H).
  unfold ret in H. injection H as <- <-. reflexivity.
Qed.

Lemma truthy_str_false v : truthy_str v = false <-> v = None \/ v = Some "".
Proof.
  destruct v as [x|]; simpl.
  - destruct (String.eqb x "") eqn:E; simpl.
    + apply String.eqb_eq in E. subst x. split; auto.
    + apply String.eqb_neq in E. split; [discriminate|]. intros [H|H]; congruence.
  - split; auto.
Qed.

(** The fallback builds its records row by row. *)
Lemma collect_book_info_rows rs :
  forall acc s hs s',
    collect_book_info rs acc s = (Ok hs, s') ->
    exists new,
      hs = acc ++ new
      /\ Forall2 (fun row h => exists t t', book_info_highlight row t = (Ok h, t')) rs new.
Proof.
  induction rs as [|row rest IH]; intros acc s hs s' H.
  - simpl in H. unfold ret in H. injection H as <- <-.
    exists []. rewrite app_nil_r. split; [reflexivity | constructor].
  - cbn [collect_book_info] in H. apply bind_inv in H as ([] & s0 & _ & H).
    apply bind_inv in H as (h & s1 & Hh & H).
    apply IH in H as (new & -> & Hnew).
    exists (h :: new). split; [rewrite <- app_assoc; reflexivity|].
    constructor; [eauto | exact Hnew].
Qed.

(** C10 (amended). In fallback mode the note is built when at least one of
    author and description is a non-empty string (an empty string counts as
    absent there), and is absent exactly when both are NULL or empty.  A note
    that is built is the text [Author: ], the author, a line break, the text
    [Description: ] and the description, where a field that is NULL is
    printed as the text None and a field that is an empty string as nothing:
    with only a description the note is [Author: None / Description: d],
    with only an author it is [Author: a / Description: None].  The records
    the fallback returns are, row by row, built that way. *)
Theorem book_info_note_labels :
  (forall (row : book_info) (s s' : state) (h : Highlight),
      book_info_highlight row s = (Ok h, s') ->
      (forall d, info_author row = None -> info_description row = Some d -> d <> "" ->
                 note h = Some ("Author: None" +:+ nl +:+ "Description: " +:+ d))
      /\ (forall a, info_author row = Some a -> a <> "" -> info_description row = None ->
                    note h = Some ("Author: " +:+ a +:+ nl +:+ "Description: None"))
      /\ (forall n, note h = Some n ->
                    contains "Author: " n = true /\ contains "Description: " n = true)
      /\ (note h = None <->
          truthy_str (info_author row) = false /\ truthy_str (info_description row) = false)
      /\ (forall n, note h = Some n ->
                    n = "Author: "
                        +:+ match info_author row with Some a => a | None => "None" end
                        +:+ nl +:+ "Description: "
                        +:+ match info_description row with Some d => d | None => "None" end)
      /\ (note h = None <->
          (info_author row = None \/ info_author row = Some "")
          /\ (info_description row = None \/ info_description row = Some "")))
  /\ (forall (filter_title : option string) (s s' : state) (hs : list Highlight),
        _get_book_info filter_title s = (Ok hs, s') ->
        exists library rs,
          library_conn s = Some library
          /\ book_info_query library filter_title = Ok rs
          /\ Forall2 (fun row h => exists t t', book_info_highlight row t = (Ok h, t')) rs hs).
Proof.
  split.
  - intros row s s' h H.
    rewrite (book_info_highlight_note _ _ _ _ H). unfold book_info_note.
    assert (Absent : (if truthy_str (info_author row) || truthy_str (info_description row)
                      then Some ("Author: " +:+ fmt_str (info_author row) +:+ nl +:+
                                 "Description: " +:+ fmt_str (info_description row))
                      else None) = None
                     <-> truthy_str (info_author row) = false
                         /\ truthy_str (info_description row) = false).
    { destruct (truthy_str (info_author row)), (truthy_str (info_description row)); simpl;
        split; try discriminate; try tauto; intros [? ?]; discriminate. }
    split; [|split; [|split; [|split; [|split]]]].
    + intros d -> -> Hd. apply String.eqb_neq in Hd. simpl. rewrite Hd. reflexivity.
    + intros a -> Ha ->. apply String.eqb_neq in Ha. simpl. rewrite Ha. reflexivity.
    + intros n. destruct (truthy_str (info_author row) || truthy_str (info_description row));
        [|discriminate].
      intros Hn. injection Hn as <-. split.
      * apply contains_here.
      * apply (contains_app_r _ "Author: "), contains_app_r, contains_app_r, contains_here.
    + exact Absent.
    + intros n. destruct (truthy_str (info_author row) || truthy_str (info_description row));
        [|discriminate].
      intros Hn. injection Hn as <-. reflexivity.
    + rewrite Absent, !truthy_str_false. reflexivity.
  - intros filter_title s s' hs H. unfold _get_book_info in H.
    destruct (library_conn s) as [library|]; [|discriminate].
    apply bind_inv in H as (rs & s1 & Hq & H).
    unfold lift in Hq. injection Hq as Hq <-.
    apply collect_book_info_rows in H as (new & -> & Hnew).
    exists library, rs. auto.
Qed.

Lemma book_info_note_labels_witness :
  let s := Sample.connected (Sample.annotations []) (Sample.library [Sample.dune]) Sample.at_noon in
  let h := {| text := "No progress data"; created_at := 1678307200000000; book_title := "Dune";
              chapter := None;
              note := Some ("Author: None" +:+ nl +:+ "Description: Epic") |} in
  book_info_highlight (Sample.info None (Some "Epic")) s = (Ok h, s)
  /\ note h = Some ("Author: None" +:+ nl +:+ "Description: " +:+ "Epic").
Proof.
  intros s h.
  assert (H : book_info_highlight (Sample.info None (Some "Epic")) s = (Ok h, s))
    by reflexivity.
  split; [exact H|].
  apply (proj1 (proj1 book_info_note_labels (Sample.info None (Some "Epic")) s s h H) "Epic");
    [reflexivity | reflexivity | discriminate].
Defined.

(** C10, as stated, fails, whether a field that holds the empty string
    counts as present or as missing.  An empty author with a NULL description
    is one field present and one missing, yet no note is built; an author with
    an empty description gives a note whose description is rendered as empty
    text, not as None. *)
Lemma book_info_note_empty_field :
  let s := Sample.connected (Sample.annotations []) (Sample.library [Sample.dune]) Sample.at_noon in
  let note_of row := note <$> match fst (book_info_highlight row s) with
                              | Ok h => Some h
                              | Raise _ => None
                              end in
  note_of (Sample.info (Some "") None) = Some None
  /\ note_of (Sample.info (Some "Frank Herbert") (Some ""))
     = Some (Some ("Author: Frank Herbert" +:+ nl +:+ "Description: "))
  /\ contains "None" ("Author: Frank Herbert" +:+ nl +:+ "Description: ") = false.
Proof. intros s note_of. repeat split; vm_compute; reflexivity. Qed.

(** ** What a run leaves untouched *)

Lemma same_world_refl s : same_world s s.
Proof. repeat split. Qed.

Lemma same_world_trans s1 s2 s3 : same_world s1 s2 -> same_world s2 s3 -> same_world s1 s3.
Proof.
  intros (A1 & B1 & C1 & D1) (A2 & B2 & C2 & D2).
  repeat split; congruence.
Qed.

Lemma keeps_world_ret {A} (a : A) : keeps_world (ret a).
Proof. intros s. apply same_world_refl. Qed.

Lemma keeps_world_lift {A} (r : result A) : keeps_world (lift r).
Proof. intros s. apply same_world_refl. Qed.

Lemma keeps_world_bind {A B} (m : M A) (k : A -> M B) :
  keeps_world m -> (forall a, keeps_world (k a)) -> keeps_world (bind m k).
Proof.
  intros Hm Hk s. specialize (Hm s). unfold bind.
  destruct (m s) as [[a|e] s1]; simpl in Hm; [|exact Hm].
  eapply same_world_trans; [exact Hm | apply Hk].
Qed.

Lemma keeps_world_except {A} (m h : M A) :
  keeps_world m -> keeps_world h -> keeps_world (except_OperationalError m h).
Proof.
  intros Hm Hh s. specialize (Hm s). unfold except_OperationalError.
  destruct (m s) as [[a|e] s1]; simpl in Hm; [exact Hm|].
  destruct e; try exact Hm.
  eapply same_world_trans; [exact Hm | apply Hh].
Qed.

Lemma keeps_world_connect : keeps_world connect.
Proof.
  intros s. unfold connect.
  destruct (files s !! annotation_db_path s) as [[db|content|]|]; try apply same_world_refl;
    (destruct (library_db_path s) as [p|]; [destruct (files s !! p) as [[db'|content'|]|]|]);
    repeat split.
Qed.

Lemma keeps_world_ensure_connected : keeps_world ensure_connected.
Proof.
  intros s. unfold ensure_connected.
  destruct (annotation_conn s); [apply same_world_refl | apply keeps_world_connect].
Qed.

Lemma keeps_world_the_annotation_conn : keeps_world the_annotation_conn.
Proof.
  intros s. unfold the_annotation_conn. destruct (annotation_conn s); apply same_world_refl.
Qed.

Lemma keeps_world_the_platform : keeps_world the_platform.
Proof. intros s. apply same_world_refl. Qed.

Lemma keeps_world_fetch can_decode : keeps_world (fetch can_decode).
Proof. apply keeps_world_lift. Qed.

Lemma keeps_world_convert_timestamp stored : keeps_world (convert_timestamp stored).
Proof.
  intros s. unfold convert_timestamp, fromtimestamp, now.
  destruct stored as [t|]; [|repeat split].
  destruct (truthy_number (Some t)); [|repeat split].
  destruct (local_datetime _ _); apply same_world_refl.
Qed.

Lemma keeps_world_resolve_title row : keeps_world (resolve_title row).
Proof.
  intros s. destruct (resolve_title_total row s) as (title & ->). apply same_world_refl.
Qed.

Lemma keeps_world_process_row filter_title row : keeps_world (process_row filter_title row).
Proof.
  unfold process_row.
  apply keeps_world_bind; [apply keeps_world_convert_timestamp|]. intros created.
  apply keeps_world_bind; [apply keeps_world_resolve_title|]. intros title.
  apply keeps_world_bind; [apply keeps_world_the_platform|]. intros machine.
  destruct (skipped machine filter_title title); apply keeps_world_ret.
Qed.

Lemma keeps_world_collect filter_title rs : forall acc, keeps_world (collect filter_title rs acc).
Proof.
  induction rs as [|row rest IH]; intros acc; simpl; [apply keeps_world_ret|].
  apply keeps_world_bind; [apply keeps_world_fetch|]. intros _.
  apply keeps_world_bind; [apply keeps_world_process_row|]. intros h. apply IH.
Qed.

Lemma keeps_world_primary filter_title conn : keeps_world (primary filter_title conn).
Proof.
  unfold primary.
  apply keeps_world_bind; [apply keeps_world_lift|]. intros rs.
  apply keeps_world_bind; [apply keeps_world_collect|]. intros hs.
  destruct hs; apply keeps_world_ret.
Qed.

Lemma keeps_world_collect_book_info rs : forall acc, keeps_world (collect_book_info rs acc).
Proof.
  induction rs as [|row rest IH]; intros acc; simpl; [apply keeps_world_ret|].
  apply keeps_world_bind; [apply keeps_world_fetch|]. intros _.
  apply keeps_world_bind; [|intros h; apply IH].
  unfold book_info_highlight.
  apply keeps_world_bind; [apply keeps_world_convert_timestamp|].
  intros created. apply keeps_world_ret.
Qed.

Lemma keeps_world_get_book_info filter_title : keeps_world (_get_book_info filter_title).
Proof.
  intros s. unfold _get_book_info.
  destruct (library_conn s) as [conn|]; [|apply same_world_refl].
  apply (keeps_world_bind (lift (book_info_query conn filter_title))
           (fun rs => collect_book_info rs []));
    [apply keeps_world_lift | intros rs; apply keeps_world_collect_book_info].
Qed.

Lemma keeps_world_get_highlights filter_title : keeps_world (get_highlights filter_title).
Proof.
  unfold get_highlights.
  apply keeps_world_bind; [apply keeps_world_ensure_connected|]. intros _.
  apply keeps_world_bind; [apply keeps_world_the_annotation_conn|]. intros conn.
  apply keeps_world_bind; [apply keeps_world_lift|]. intros _.
  apply keeps_world_bind.
  - apply keeps_world_except; [apply keeps_world_primary | apply keeps_world_ret].
  - intros [hs|]; [apply keeps_world_ret | apply keeps_world_get_book_info].
Qed.

(** ** export_to_markdown: the sections of the document *)

Lemma append_nil_r s : s +:+ "" = s.
Proof.
  induction s as [|c s IH]; [reflexivity|].
  change (String c (s +:+ "") = String c s). rewrite IH. reflexivity.
Qed.

Lemma append_assoc a b c : (a +:+ b) +:+ c = a +:+ (b +:+ c).
Proof.
  induction a as [|x a IH]; [reflexivity|].
  change (String x ((a +:+ b) +:+ c) = String x (a +:+ (b +:+ c))). rewrite IH. reflexivity.
Qed.

Lemma concat_empty_cons x xs : String.concat "" (x :: xs) = x +:+ String.concat "" xs.
Proof. destruct xs; simpl; [rewrite append_nil_r|]; reflexivity. Qed.

Lemma concat_empty_app xs ys :
  String.concat "" (xs ++ ys) = String.concat "" xs +:+ String.concat "" ys.
Proof.
  induction xs as [|x xs IH]; [reflexivity|].
  rewrite <- app_comm_cons, !concat_empty_cons, IH, append_assoc. reflexivity.
Qed.












(** ** export_to_markdown: what it does to the files *)

(** X11. An export fails with the exception of the extraction, or, the
    extraction done, with the failure of opening the output path (the path
    is a directory, or the machine refuses it); in both cases every file is
    left as it was.  Otherwise it succeeds, and the file system differs
    from the one before in the output path only, which holds the document
    of the extracted records. *)
Theorem export_to_markdown_files (output_path : string) (filter_title : option string) (s : state) :
  match fst (export_to_markdown output_path filter_title s) with
  | Raise e =>
      files (snd (export_to_markdown output_path filter_title s)) = files s
      /\ (fst (get_highlights filter_title s) = Raise e
          \/ (exists hs, fst (get_highlights filter_title s) = Ok hs)
             /\ (files s !! output_path = Some Directory /\ e = OSError
                 \/ files s !! output_path <> Some Directory
                    /\ exists why, open_failure (os s) output_path = Some why
                                   /\ e = exn_of_open_error why))
  | Ok _ =>
      exists hs,
        fst (get_highlights filter_title s) = Ok hs
        /\ files s !! output_path <> Some Directory
        /\ open_failure (os s) output_path = None
        /\ files (snd (export_to_markdown output_path filter_title s))
           = <[output_path := Document (document (os s) hs)]> (files s)
  end.
Proof.
  pose proof (keeps_world_get_highlights filter_title s) as (Hf & _ & _ & Hu).
  unfold export_to_markdown, bind.
  destruct (get_highlights filter_title s) as [[hs|e] s1]; simpl in *; [|auto].
  unfold write_document. rewrite Hf, Hu.
  destruct (files s !! output_path) as [[db|content|]|] eqn:Ef;
    try (simpl; split; [exact Hf|]; right; split; [eauto|]; left; auto);
    (destruct (open_failure (os s) output_path) as [why|] eqn:Eo; simpl;
     [ split; [exact Hf|]; right; split; [eauto|]; right; split; [discriminate|eauto]
     | exists hs; repeat split; try discriminate; rewrite Hf; reflexivity ]).
Qed.

(** ** The document, record by record *)

(** X13. Section headers apart, the document is the sequence of the
    records' blocks, in order: a record's quote, its note line when the note
    is a non-empty string, its chapter line ([N/A] for a missing or empty
    chapter) and its date line, whatever the records before it are. *)
Theorem write_highlights_records
  (machine : platform) (current_book : option string) (hs : list Highlight) :
  filter (fun c => is_header c = false) (write_highlights machine current_book hs)
  = concat (map (record_chunks machine) hs).
Proof.
  revert current_book. induction hs as [|h rest IH]; intros current_book; [reflexivity|].
  cbn [write_highlights map]. rewrite concat_cons, !filter_app, IH.
  unfold record_chunks.
  destruct (negb (bool_decide (Some (book_title h) = current_book)));
    destruct (truthy_str (note h)); reflexivity.
Qed.

Lemma write_highlights_first machine t hs :
  (forall h, head hs = Some h -> book_title h <> t) ->
  write_highlights machine (Some t) hs = write_highlights machine None hs.
Proof.
  destruct hs as [|h rest]; [reflexivity|]. intros H.
  specialize (H h eq_refl). simpl.
  rewrite (bool_decide_eq_false_2 (Some (book_title h) = Some t)) by congruence.
  reflexivity.
Qed.

Lemma write_highlights_app machine current_book hs1 hs2 :
  write_highlights machine current_book (hs1 ++ hs2)
  = write_highlights machine current_book hs1
    ++ write_highlights machine
         (match last hs1 with Some h => Some (book_title h) | None => current_book end) hs2.
Proof.
  revert current_book. induction hs1 as [|h rest IH]; intros current_book; [reflexivity|].
  rewrite <- app_comm_cons. cbn [write_highlights]. rewrite IH, last_cons.
  rewrite <- !app_assoc. repeat f_equal.
  destruct (last rest); [reflexivity|].
  destruct (negb (bool_decide (Some (book_title h) = current_book))) eqn:E; [reflexivity|].
  apply negb_false_iff, bool_decide_eq_true in E. symmetry. exact E.
Qed.

(** X14. Writing two sequences one after the other: the writes for
    [hs1 ++ hs2] are the writes for [hs1] followed by the writes for [hs2]
    started with the title of the last record of [hs1] as current book.  So
    the document of [hs1 ++ hs2] is the document of [hs1] followed by the
    document of [hs2] whenever [hs2] does not start with the title [hs1]
    ends with. *)
Theorem document_app (machine : platform) (hs1 hs2 : list Highlight) :
  write_highlights machine None (hs1 ++ hs2)
  = write_highlights machine None hs1
    ++ write_highlights machine (book_title <$> last hs1) hs2
  /\ ((forall h1 h2, last hs1 = Some h1 -> head hs2 = Some h2 ->
                     book_title h1 <> book_title h2) ->
      document machine (hs1 ++ hs2) = document machine hs1 +:+ document machine hs2).
Proof.
  assert (E : write_highlights machine None (hs1 ++ hs2)
              = write_highlights machine None hs1
                ++ write_highlights machine (book_title <$> last hs1) hs2).
  { rewrite write_highlights_app. destruct (last hs1); reflexivity. }
  split; [exact E|].
  intros H.
  assert (W : write_highlights machine (book_title <$> last hs1) hs2
              = write_highlights machine None hs2).
  { destruct (last hs1) as [h1|]; [|reflexivity].
    apply write_highlights_first. intros h2 Hh. apply not_eq_sym. exact (H h1 h2 eq_refl Hh). }
  unfold document. rewrite E, W, map_app, concat_empty_app. reflexivity.
Qed.

Lemma document_app_witness :
  let h t x := {| text := x; created_at := 0; book_title := t;
                  chapter := None; note := None |} in
  document Sample.utc ([h "Dune" "spice"] ++ [h "Foundation" "psychohistory"])
  = document Sample.utc [h "Dune" "spice"]
    +:+ document Sample.utc [h "Foundation" "psychohistory"].
Proof.
  intros h.
  apply (proj2 (document_app Sample.utc [h "Dune" "spice"] [h "Foundation" "psychohistory"])).
  intros h1 h2 H1 H2. injection H1 as <-. injection H2 as <-. discriminate.
Defined.

(** ** The order of the primary sequence *)

Lemma sql_lt_asym a b : sql_lt a b = true -> sql_lt b a = false.
Proof.
  unfold sql_lt. destruct (sql_rank a) as [ca va], (sql_rank b) as [cb vb]. simpl. lia.
Qed.

Lemma sql_ge_trans {A} (key : A -> option number) x y z :
  sql_ge key x y -> sql_ge key y z -> sql_ge key x z.
Proof.
  unfold sql_ge, sql_lt.
  destruct (sql_rank (key x)) as [cx vx], (sql_rank (key y)) as [cy vy],
           (sql_rank (key z)) as [cz vz]. simpl. lia.
Qed.

Lemma insert_desc_Forall {A} (P : A -> Prop) key x l :
  P x -> Forall P l -> Forall P (insert_desc key x l).
Proof.
  intros Hx. induction 1 as [|y r Hy Hr IH]; simpl.
  - repeat constructor. exact Hx.
  - destruct (sql_lt (key x) (key y)); repeat constructor; assumption.
Qed.

Lemma insert_desc_sorted {A} (key : A -> option number) x l :
  StronglySorted (sql_ge key) l -> StronglySorted (sql_ge key) (insert_desc key x l).
Proof.
  induction 1 as [|y r Hr IH Hy]; simpl.
  - repeat constructor.
  - destruct (sql_lt (key x) (key y)) eqn:E.
    + constructor; [exact IH|].
      apply insert_desc_Forall; [|exact Hy]. apply sql_lt_asym, E.
    + constructor; [constructor; assumption|].
      constructor; [exact E|].
      eapply Forall_impl; [exact Hy|]. intros z Hz. exact (sql_ge_trans key x y z E Hz).
Qed.

Lemma order_by_desc_sorted {A} (key : A -> option number) l :
  StronglySorted (sql_ge key) (order_by_desc key l).
Proof.
  induction l as [|x l IH]; simpl; [constructor | apply insert_desc_sorted, IH].
Qed.

Lemma order_by_desc_Forall {A} (P : A -> Prop) key l :
  Forall P l -> Forall P (order_by_desc key l).
Proof.
  induction 1; simpl; [constructor | apply insert_desc_Forall; assumption].
Qed.


Lemma keeps_order_spec {A} machine (key : A -> option number) rs :
  keeps_order machine key rs = true ->
  forall x y t u d e,
    x ∈ rs -> y ∈ rs -> key x = Some t -> key y = Some u ->
    local_datetime machine (plus_epoch_offset t) = inl d ->
    local_datetime machine (plus_epoch_offset u) = inl e ->
    sql_ge key x y -> e <= d.
Proof.
  unfold keeps_order, sql_ge. intros H x y t u d e Hx Hy Kx Ky Dx Dy Hge.
  rewrite forallb_forall in H. apply list_elem_of_In in Hx, Hy.
  specialize (H x Hx). rewrite forallb_forall in H. specialize (H y Hy).
  rewrite Hge in H. rewrite Kx, Ky, Dx, Dy in H. simpl in H. lia.
Qed.






(** ** Runs that do not depend on the time of the run *)

Lemma same_but_clock_refl s : same_but_clock s s.
Proof. repeat split. Qed.

Lemma same_but_clock_sym s1 s2 : same_but_clock s1 s2 -> same_but_clock s2 s1.
Proof. intros (A & B & C & D & E & F). repeat split; congruence. Qed.

Lemma same_but_clock_trans s1 s2 s3 :
  same_but_clock s1 s2 -> same_but_clock s2 s3 -> same_but_clock s1 s3.
Proof.
  intros (A & B & C & D & E & F) (A' & B' & C' & D' & E' & F'). repeat split; congruence.
Qed.

Lemma same_but_clock_set_clock c n s : same_but_clock s (set_clock c n s).
Proof. repeat split. Qed.

Lemma same_but_clock_tick s1 s2 : same_but_clock s1 s2 -> same_but_clock (tick s1) (tick s2).
Proof. intros H. exact H. Qed.

Lemma clock_blind_ret {A} (a : A) s1 s2 : same_but_clock s1 s2 -> clock_blind (ret a) s1 s2.
Proof. intros H. split; [reflexivity | exact H]. Qed.

Lemma clock_blind_lift {A} (r : result A) s1 s2 :
  same_but_clock s1 s2 -> clock_blind (lift r) s1 s2.
Proof. intros H. split; [reflexivity | exact H]. Qed.

Lemma clock_blind_bind {A B} (m : M A) (k : A -> M B) s1 s2 :
  clock_blind m s1 s2 ->
  (forall a, fst (m s1) = Ok a -> same_but_clock (snd (m s1)) (snd (m s2)) ->
             clock_blind (k a) (snd (m s1)) (snd (m s2))) ->
  clock_blind (bind m k) s1 s2.
Proof.
  intros [Hr Hs] Hk. unfold clock_blind, bind in *.
  destruct (m s1) as [[a|e] t1], (m s2) as [[a'|e'] t2]; simpl in *; try discriminate.
  - injection Hr as <-. apply (Hk a eq_refl Hs).
  - injection Hr as <-. split; [reflexivity | exact Hs].
Qed.

Lemma clock_blind_except {A} (m h : M A) s1 s2 :
  clock_blind m s1 s2 ->
  (fst (m s1) = Raise OperationalError -> same_but_clock (snd (m s1)) (snd (m s2)) ->
   clock_blind h (snd (m s1)) (snd (m s2))) ->
  clock_blind (except_OperationalError m h) s1 s2.
Proof.
  intros [Hr Hs] Hh. unfold clock_blind, except_OperationalError in *.
  destruct (m s1) as [[a|e] t1], (m s2) as [[a'|e'] t2]; simpl in *; try discriminate.
  - injection Hr as <-. split; [reflexivity | exact Hs].
  - injection Hr as <-. destruct e; try (split; [reflexivity | exact Hs]).
    apply (Hh eq_refl Hs).
Qed.

Lemma clock_blind_connect s1 s2 : same_but_clock s1 s2 -> clock_blind connect s1 s2.
Proof.
  intros (A & B & C & D & E & F). unfold clock_blind, connect. rewrite <- A, <- B, <- E.
  destruct (files s1 !! annotation_db_path s1) as [[db|content|]|];
    try (destruct (library_db_path s1) as [p|] eqn:Ep;
         [destruct (files s1 !! p) as [[db'|content'|]|]|]);
    (split; [reflexivity | unfold same_but_clock; simpl; repeat split; congruence]).
Qed.

Lemma clock_blind_ensure_connected s1 s2 :
  same_but_clock s1 s2 -> clock_blind ensure_connected s1 s2.
Proof.
  intros H. pose proof H as (_ & _ & C & _). unfold clock_blind, ensure_connected.
  rewrite <- C. destruct (annotation_conn s1); [|apply clock_blind_connect, H].
  split; [reflexivity | exact H].
Qed.

Lemma clock_blind_the_annotation_conn s1 s2 :
  same_but_clock s1 s2 -> clock_blind the_annotation_conn s1 s2.
Proof.
  intros H. pose proof H as (_ & _ & C & _). unfold clock_blind, the_annotation_conn.
  rewrite <- C. destruct (annotation_conn s1); (split; [reflexivity | exact H]).
Qed.

Lemma clock_blind_the_platform s1 s2 : same_but_clock s1 s2 -> clock_blind the_platform s1 s2.
Proof.
  intros H. pose proof H as (_ & _ & _ & _ & _ & F). unfold clock_blind, the_platform.
  simpl. rewrite F. split; [reflexivity | exact H].
Qed.

Lemma clock_blind_resolve_title row s1 s2 :
  same_but_clock s1 s2 -> clock_blind (resolve_title row) s1 s2.
Proof.
  intros H. pose proof H as (_ & _ & _ & D & _).
  pose proof (resolve_title_conn row s1 s2 D) as E.
  destruct (resolve_title_total row s1) as (t1 & E1), (resolve_title_total row s2) as (t2 & E2).
  unfold clock_blind. rewrite E, E2. rewrite E1. split; [reflexivity | exact H].
Qed.

Lemma clock_blind_convert_timestamp stored s1 s2 :
  truthy_number stored = true -> same_but_clock s1 s2 ->
  clock_blind (convert_timestamp stored) s1 s2.
Proof.
  intros Ht H. pose proof H as (_ & _ & _ & _ & _ & F).
  unfold clock_blind, convert_timestamp. destruct stored as [t|]; [|discriminate].
  rewrite Ht. unfold fromtimestamp. rewrite <- F.
  destruct (local_datetime (os s1) (plus_epoch_offset t)); (split; [reflexivity | exact H]).
Qed.

Lemma clock_blind_process_row filter_title row s1 s2 :
  truthy_number (row_created_at row) = true -> same_but_clock s1 s2 ->
  clock_blind (process_row filter_title row) s1 s2.
Proof.
  intros Ht H. unfold process_row.
  apply clock_blind_bind; [apply clock_blind_convert_timestamp; assumption|].
  intros created _ H1.
  apply clock_blind_bind; [apply clock_blind_resolve_title, H1|]. intros title _ H2.
  apply clock_blind_bind; [apply clock_blind_the_platform, H2|]. intros machine _ H3.
  destruct (skipped machine filter_title title); apply clock_blind_ret, H3.
Qed.

Lemma clock_blind_collect filter_title rs :
  Forall (fun r => truthy_number (row_created_at r) = true) rs ->
  forall acc s1 s2, same_but_clock s1 s2 -> clock_blind (collect filter_title rs acc) s1 s2.
Proof.
  induction 1 as [|row rest Hrow _ IH]; intros acc s1 s2 H; cbn [collect].
  - apply clock_blind_ret, H.
  - apply clock_blind_bind; [apply clock_blind_lift, H|]. intros _ _ H1.
    apply clock_blind_bind; [apply clock_blind_process_row; assumption|]. intros h _ H2.
    apply IH, H2.
Qed.

Lemma clock_blind_primary filter_title conn s1 s2 :
  (forall rs, primary_query conn = Ok rs ->
              Forall (fun r => truthy_number (row_created_at r) = true) rs) ->
  same_but_clock s1 s2 -> clock_blind (primary filter_title conn) s1 s2.
Proof.
  intros Hd H. unfold primary.
  apply clock_blind_bind; [apply clock_blind_lift, H|]. intros rs Hq H1.
  apply clock_blind_bind; [apply clock_blind_collect; [apply Hd, Hq | exact H1]|].
  intros hs _ H2. destruct hs; apply clock_blind_ret, H2.
Qed.

Lemma clock_blind_collect_book_info rs :
  Forall (fun r => truthy_number (info_last_opened r) = true) rs ->
  forall acc s1 s2, same_but_clock s1 s2 -> clock_blind (collect_book_info rs acc) s1 s2.
Proof.
  induction 1 as [|row rest Hrow _ IH]; intros acc s1 s2 H; cbn [collect_book_info].
  - apply clock_blind_ret, H.
  - apply clock_blind_bind; [apply clock_blind_lift, H|]. intros _ _ H1.
    apply clock_blind_bind; [|intros h _ H2; apply IH, H2].
    unfold book_info_highlight.
    apply clock_blind_bind; [apply clock_blind_convert_timestamp; assumption|].
    intros created _ H2. apply clock_blind_ret, H2.
Qed.

Lemma clock_blind_get_book_info filter_title s1 s2 :
  (forall library rs,
      library_conn s1 = Some library -> book_info_query library filter_title = Ok rs ->
      Forall (fun r => truthy_number (info_last_opened r) = true) rs) ->
  same_but_clock s1 s2 -> clock_blind (_get_book_info filter_title) s1 s2.
Proof.
  intros Hd H. pose proof H as (_ & _ & _ & D & _).
  unfold clock_blind, _get_book_info. rewrite <- D.
  destruct (library_conn s1) as [library|]; [|split; [reflexivity | exact H]].
  change (clock_blind (rs <- lift (book_info_query library filter_title) ;;
                       collect_book_info rs []) s1 s2).
  apply clock_blind_bind; [apply clock_blind_lift, H|]. intros rs Hq H1.
  apply clock_blind_collect_book_info; [exact (Hd library rs eq_refl Hq) | exact H1].
Qed.

Lemma clock_blind_write_document output_path hs s1 s2 :
  same_but_clock s1 s2 -> clock_blind (write_document output_path hs) s1 s2.
Proof.
  intros H. pose proof H as (A & B & C & D & E & F).
  unfold clock_blind, write_document. rewrite <- E, <- F.
  destruct (files s1 !! output_path) as [[db|content|]|];
    try (split; [reflexivity | exact H]);
    (destruct (open_failure (os s1) output_path); [split; [reflexivity | exact H]|]);
    (split; [reflexivity | repeat split; simpl; congruence]).
Qed.

(** Whatever the timestamps, two runs of the loop body end the same way,
    records apart. *)
Lemma process_row_related filter_title row s1 s2 :
  same_but_clock s1 s2 ->
  same_but_clock (snd (process_row filter_title row s1)) (snd (process_row filter_title row s2))
  /\ ((exists e, fst (process_row filter_title row s1) = Raise e
                 /\ fst (process_row filter_title row s2) = Raise e)
      \/ (exists r1 r2, fst (process_row filter_title row s1) = Ok r1
                        /\ fst (process_row filter_title row s2) = Ok r2)).
Proof.
  intros H. pose proof H as (_ & _ & _ & _ & _ & F).
  assert (Hc : same_but_clock (snd (convert_timestamp (row_created_at row) s1))
                              (snd (convert_timestamp (row_created_at row) s2))
               /\ ((exists e, fst (convert_timestamp (row_created_at row) s1) = Raise e
                              /\ fst (convert_timestamp (row_created_at row) s2) = Raise e)
                   \/ (exists d1 d2, fst (convert_timestamp (row_created_at row) s1) = Ok d1
                                     /\ fst (convert_timestamp (row_created_at row) s2) = Ok d2))).
  { unfold convert_timestamp, now.
    destruct (row_created_at row) as [t|]; [|simpl; split; [exact H | right; eauto]].
    destruct (truthy_number (Some t)); [|simpl; split; [exact H | right; eauto]].
    unfold fromtimestamp. rewrite <- F.
    destruct (local_datetime (os s1) (plus_epoch_offset t)); simpl;
      (split; [exact H | eauto]). }
  unfold process_row, bind.
  destruct Hc as [Hs [(e & E1 & E2)|(d1 & d2 & E1 & E2)]];
    destruct (convert_timestamp (row_created_at row) s1) as [x1 t1],
             (convert_timestamp (row_created_at row) s2) as [x2 t2];
    simpl in Hs, E1, E2; subst x1 x2; simpl.
  - split; [exact Hs | left; eauto].
  - destruct (resolve_title_total row t1) as (title1 & ->),
             (resolve_title_total row t2) as (title2 & ->).
    unfold the_platform.
    destruct (skipped (os t1) filter_title title1), (skipped (os t2) filter_title title2);
      unfold ret; simpl; (split; [exact Hs | right; eauto]).
Qed.

(** A row that cannot be decoded stops the loop with an exception, the
    same from two states that differ in the clock. *)
Lemma collect_undecodable filter_title rs :
  Exists (fun r => row_decodable r = false) rs ->
  forall acc1 acc2 s1 s2,
    same_but_clock s1 s2 ->
    same_but_clock (snd (collect filter_title rs acc1 s1))
                   (snd (collect filter_title rs acc2 s2))
    /\ exists e, fst (collect filter_title rs acc1 s1) = Raise e
                 /\ fst (collect filter_title rs acc2 s2) = Raise e.
Proof.
  induction rs as [|row rest IH]; intros Hex acc1 acc2 s1 s2 H; [inversion Hex|].
  cbn [collect]. unfold bind, fetch, lift.
  destruct (row_decodable row) eqn:E.
  - apply Exists_cons in Hex as [Hex|Hex]; [congruence|].
    destruct (process_row_related filter_title row s1 s2 H)
      as [Hs [(e & E1 & E2)|(r1 & r2 & E1 & E2)]];
      destruct (process_row filter_title row s1) as [x1 t1],
               (process_row filter_title row s2) as [x2 t2];
      simpl in Hs, E1, E2; subst x1 x2.
    + split; [exact Hs | eauto].
    + apply (IH Hex), Hs.
  - split; [exact H | eauto].
Qed.

Lemma convert_timestamp_refused stored s e s' :
  convert_timestamp stored s = (Raise e, s') ->
  s' = s
  /\ exists t why,
       stored = Some t /\ truthy_number (Some t) = true
       /\ local_datetime (os s) (plus_epoch_offset t) = inr why
       /\ e = exn_of_date_error why.
Proof.
  unfold convert_timestamp, fromtimestamp, now. destruct stored as [t|]; [|discriminate].
  destruct (truthy_number (Some t)) eqn:Et; [|discriminate].
  destruct (local_datetime (os s) (plus_epoch_offset t)) as [d|why] eqn:Ed; [discriminate|].
  intros H. injection H as <- <-. split; [reflexivity|]. exists t, why. auto.
Qed.

Lemma process_row_refused filter_title row s e s' :
  process_row filter_title row s = (Raise e, s') ->
  exists t why,
    row_created_at row = Some t /\ truthy_number (Some t) = true
    /\ local_datetime (os s) (plus_epoch_offset t) = inr why
    /\ e = exn_of_date_error why.
Proof.
  unfold process_row. intros H.
  apply bind_raise_inv in H as [H|(created & s1 & _ & H)].
  - apply convert_timestamp_refused in H as (_ & H). exact H.
  - destruct (resolve_title_total row s1) as (title & Ht).
    rewrite (bind_Ok _ _ _ _ _ Ht) in H. unfold bind, the_platform in H.
    destruct (skipped (os s1) filter_title title); discriminate.
Qed.

Lemma collect_raises_OperationalError filter_title rs :
  forall acc s s',
    collect filter_title rs acc s = (Raise OperationalError, s') ->
    Exists (fun r => row_decodable r = false) rs.
Proof.
  induction rs as [|row rest IH]; intros acc s s' H; [discriminate|].
  cbn [collect] in H.
  destruct (row_decodable row) eqn:E; [|left; exact E].
  right. unfold fetch, lift in H.
  apply bind_raise_inv in H as [H|([] & s0 & H0 & H)]; [discriminate|].
  injection H0 as <-.
  apply bind_raise_inv in H as [H|(h & s1 & _ & H)].
  - apply process_row_refused in H as (t & [] & _ & _ & _ & H); discriminate.
  - exact (IH _ _ _ H).
Qed.

Lemma skipped_no_filter machine filter_title title :
  truthy_str filter_title = false -> skipped machine filter_title title = false.
Proof.
  unfold skipped. destruct filter_title as [f|]; [|reflexivity].
  intros ->. destruct title; reflexivity.
Qed.

(** Without a filter the loop builds one record for each row. *)
Lemma collect_no_filter_length rs :
  forall acc s hs s',
    collect None rs acc s = (Ok hs, s') -> length hs = (length acc + length rs)%nat.
Proof.
  induction rs as [|row rest IH]; intros acc s hs s' H.
  - simpl in H. unfold ret in H. injection H as <- _. simpl. lia.
  - cbn [collect] in H. apply bind_inv in H as ([] & s0 & _ & H).
    apply bind_inv in H as (r & s1 & Hp & H).
    apply process_row_inv in Hp as (created & title & _ & _ & ->).
    rewrite skipped_no_filter in H by reflexivity. apply IH in H.
    rewrite H, length_app. simpl. lia.
Qed.

(** The primary path of a run without a filter falls out of the [try]
    block with no record exactly when [falls_back] says so. *)
Lemma primary_None_falls_back conn s :
  fst (except_OperationalError (primary None conn) (ret None) s) = Ok None ->
  falls_back conn.
Proof.
  unfold except_OperationalError.
  destruct (primary None conn s) as [[found|e] s1] eqn:E; simpl.
  - intros H. injection H as ->. unfold primary in E.
    apply bind_inv in E as (rs & s0 & Hq & E). unfold lift in Hq. injection Hq as Hq <-.
    apply bind_inv in E as (hs & s2 & Hc & E).
    destruct hs; [|discriminate].
    apply collect_no_filter_length in Hc. destruct rs; [|discriminate].
    right. exists []. auto.
  - destruct e; simpl; try discriminate. intros _. unfold primary in E.
    apply bind_raise_inv in E as [E|(rs & s0 & Hq & E)].
    + unfold lift in E. injection E as E _. left. exact E.
    + unfold lift in Hq. injection Hq as Hq <-.
      apply bind_raise_inv in E as [E|(hs & s2 & _ & E)].
      * right. exists rs. split; [exact Hq|]. right.
        exact (collect_raises_OperationalError _ _ _ _ _ E).
      * destruct hs; discriminate.
Qed.

Lemma primary_falls_back conn s1 s2 :
  falls_back conn -> same_but_clock s1 s2 ->
  clock_blind (except_OperationalError (primary None conn) (ret None)) s1 s2
  /\ forall found,
       fst (except_OperationalError (primary None conn) (ret None) s1) = Ok found ->
       found = None.
Proof.
  intros Hf H. unfold clock_blind, except_OperationalError, primary, bind, lift.
  destruct Hf as [Hq|(rs & Hq & [->|Hex])]; rewrite Hq.
  - simpl. split; [split; [reflexivity | exact H]|].
    intros found E. injection E as <-. reflexivity.
  - simpl. split; [split; [reflexivity | exact H]|].
    intros found E. injection E as <-. reflexivity.
  - destruct (collect_undecodable None rs Hex [] [] s1 s2 H) as [Hs (e & E1 & E2)].
    destruct (collect None rs [] s1) as [x1 t1], (collect None rs [] s2) as [x2 t2];
      simpl in Hs, E1, E2; subst x1 x2.
    destruct e; simpl; (split; [split; [reflexivity | exact Hs]|]);
      intros found E; try discriminate; injection E as <-; reflexivity.
Qed.

Lemma falls_back_dec conn : falls_back conn \/ ~ falls_back conn.
Proof.
  unfold falls_back. destruct (primary_query conn) as [rs|e] eqn:E.
  - destruct rs as [|r rs']; [left; right; eauto|].
    destruct (decide (Exists (fun r => row_decodable r = false) (r :: rs'))) as [Hex|Hnex].
    + left. right. eauto.
    + right. intros [H|(rs & H & [->|Hex])]; [discriminate | discriminate |].
      injection H as <-. exact (Hnex Hex).
  - destruct e; try (right; intros [H|(rs & H & _)]; discriminate). left. left. reflexivity.
Qed.

Lemma the_annotation_conn_inv s conn :
  fst (the_annotation_conn s) = Ok conn ->
  annotation_conn s = Some conn /\ snd (the_annotation_conn s) = s.
Proof.
  unfold the_annotation_conn. destruct (annotation_conn s); [|discriminate].
  simpl. intros H. injection H as ->. auto.
Qed.

Lemma the_annotation_conn_state s : snd (the_annotation_conn s) = s.
Proof. unfold the_annotation_conn. destruct (annotation_conn s); reflexivity. Qed.

(** Once connected, the extraction leaves everything but the clock. *)
Lemma session_convert_timestamp stored s :
  same_but_clock s (snd (convert_timestamp stored s)).
Proof.
  unfold convert_timestamp, fromtimestamp, now.
  destruct stored as [t|]; [|repeat split].
  destruct (truthy_number (Some t)); [|repeat split].
  destruct (local_datetime _ _); repeat split.
Qed.

Lemma session_process_row filter_title row s :
  same_but_clock s (snd (process_row filter_title row s)).
Proof.
  unfold process_row, bind.
  pose proof (session_convert_timestamp (row_created_at row) s) as H.
  destruct (convert_timestamp (row_created_at row) s) as [[created|e] s1]; simpl in H;
    [|exact H].
  destruct (resolve_title_total row s1) as (title & ->). unfold the_platform.
  destruct (skipped (os s1) filter_title title); exact H.
Qed.

Lemma session_collect filter_title rs :
  forall acc s, same_but_clock s (snd (collect filter_title rs acc s)).
Proof.
  induction rs as [|row rest IH]; intros acc s; [apply same_but_clock_refl|].
  cbn [collect]. unfold bind, fetch, lift.
  destruct (row_decodable row); [|apply same_but_clock_refl].
  pose proof (session_process_row filter_title row s) as H.
  destruct (process_row filter_title row s) as [[h|e] s1]; simpl in H; [|exact H].
  eapply same_but_clock_trans; [exact H | apply IH].
Qed.

Lemma session_primary filter_title conn s :
  same_but_clock s (snd (except_OperationalError (primary filter_title conn) (ret None) s)).
Proof.
  unfold except_OperationalError, primary, bind, lift.
  destruct (primary_query conn) as [rs|e]; [|destruct e; apply same_but_clock_refl].
  pose proof (session_collect filter_title rs [] s) as H.
  destruct (collect filter_title rs [] s) as [[hs|e] s1]; simpl in H.
  - destruct hs; exact H.
  - destruct e; exact H.
Qed.

Lemma clock_blind_get_highlights s1 s2 :
  same_but_clock s1 s2 -> dated_for_export s1 -> clock_blind (get_highlights None) s1 s2.
Proof.
  intros H Hd. unfold get_highlights.
  apply clock_blind_bind; [apply clock_blind_ensure_connected, H|]. intros [] He H1.
  assert (Ee : ensure_connected s1 = (Ok tt, snd (ensure_connected s1))).
  { destruct (ensure_connected s1) as [r t]. simpl in He. subst r. reflexivity. }
  pose proof (fun conn => Hd _ conn Ee) as Hd'. clear Hd Ee He.
  generalize dependent (snd (ensure_connected s1)). intros t1.
  generalize (snd (ensure_connected s2)). intros t2 H1 Hd'.
  apply clock_blind_bind; [apply clock_blind_the_annotation_conn, H1|]. intros conn Hc _.
  apply the_annotation_conn_inv in Hc as [Hconn _]. rewrite !the_annotation_conn_state.
  destruct (Hd' conn Hconn) as [Hprim Hfall].
  apply clock_blind_bind; [apply clock_blind_lift, H1|]. intros _ _ _. cbn [lift snd].
  destruct (falls_back_dec conn) as [Hfb|Hnfb].
  - destruct (primary_falls_back conn t1 t2 Hfb H1) as [Hb Hnone].
    apply clock_blind_bind; [exact Hb|]. intros found Hfound H3.
    rewrite (Hnone found Hfound).
    apply clock_blind_get_book_info; [|exact H3].
    intros library rs Hl Hq. apply (Hfall Hfb library rs); [|exact Hq].
    pose proof (session_primary None conn t1) as (_ & _ & _ & D & _).
    rewrite D. exact Hl.
  - apply clock_blind_bind.
    + apply clock_blind_except; [apply clock_blind_primary; [exact (Hprim Hnfb) | exact H1]|].
      intros _ H3. apply clock_blind_ret, H3.
    + intros found Hfound H3. destruct found as [hs|]; [apply clock_blind_ret, H3|].
      exfalso. apply Hnfb. exact (primary_None_falls_back conn t1 Hfound).
Qed.

Lemma dated_for_export_related s s' :
  same_but_clock s s' -> dated_for_export s -> dated_for_export s'.
Proof.
  intros H Hd s1' conn He Hc.
  destruct (clock_blind_ensure_connected s s' H) as [Hr Hs].
  rewrite He in Hr, Hs. simpl in Hr, Hs.
  destruct (ensure_connected s) as [r s1] eqn:E. simpl in Hr, Hs. subst r.
  pose proof Hs as (_ & _ & C & D & _).
  destruct (Hd s1 conn E (eq_trans C Hc)) as [P F].
  split; [exact P|]. intros Hfb library rs Hl. apply (F Hfb). congruence.
Qed.

(** C9 (amended). On a store in which every timestamp that an export
    without a filter writes as a date is there and is not zero (the creation
    dates of the annotations the primary query selects, when the primary
    path yields the records; the last-opened dates of the books the fallback
    query selects, when the run falls back on the library), two runs of the
    export without a filter end the same way and leave the same files,
    whatever the clock reads during each run. *)
Theorem export_deterministic
  (output_path : string) (s : state) (c1 c2 : nat -> datetime) (n1 n2 : nat) :
  dated_for_export s ->
  fst (export_to_markdown output_path None (set_clock c1 n1 s))
    = fst (export_to_markdown output_path None (set_clock c2 n2 s))
  /\ files (snd (export_to_markdown output_path None (set_clock c1 n1 s)))
     = files (snd (export_to_markdown output_path None (set_clock c2 n2 s))).
Proof.
  intros Hd.
  assert (H : clock_blind (export_to_markdown output_path None)
                (set_clock c1 n1 s) (set_clock c2 n2 s)).
  { unfold export_to_markdown. apply clock_blind_bind.
    - apply clock_blind_get_highlights; [repeat split|].
      apply (dated_for_export_related s); [apply same_but_clock_set_clock | exact Hd].
    - intros hs _ H. apply clock_blind_write_document, H. }
  destruct H as [Hr (_ & _ & _ & _ & E & _)]. split; assumption.
Qed.

(** Two dated annotations, and a library with a book that was never
    opened: the primary path yields the records, the library is only asked
    for titles. *)
Lemma dated_for_export_sample c :
  dated_for_export (Sample.fresh (Sample.annotations Sample.two_dated)
                      (Sample.library [Sample.dune; Sample.unopened]) c).
Proof.
  intros s1 conn He Hc.
  assert (E : ensure_connected
                (Sample.fresh (Sample.annotations Sample.two_dated)
                   (Sample.library [Sample.dune; Sample.unopened]) c)
              = (Ok tt, Sample.connected (Sample.annotations Sample.two_dated)
                          (Sample.library [Sample.dune; Sample.unopened]) c))
    by reflexivity.
  rewrite E in He. injection He as <-. simpl in Hc. injection Hc as <-.
  split.
  - intros _ rs Hq. vm_compute in Hq. injection Hq as <-. repeat constructor.
  - intros Hfb. exfalso.
    destruct Hfb as [H|(rs & H & [->|Hex])]; vm_compute in H; try discriminate.
    injection H as <-.
    repeat (apply Exists_cons in Hex as [Hex|Hex]; [discriminate|]). inversion Hex.
Qed.

Lemma export_deterministic_witness :
  let s := Sample.fresh (Sample.annotations Sample.two_dated)
             (Sample.library [Sample.dune; Sample.unopened]) Sample.at_noon in
  fst (export_to_markdown "out.md" None (set_clock Sample.at_noon 0 s))
    = fst (export_to_markdown "out.md" None (set_clock Sample.at_night 0 s))
  /\ files (snd (export_to_markdown "out.md" None (set_clock Sample.at_noon 0 s)))
     = files (snd (export_to_markdown "out.md" None (set_clock Sample.at_night 0 s))).
Proof.
  intros s.
  exact (export_deterministic "out.md" s Sample.at_noon Sample.at_night 0 0
           (dated_for_export_sample Sample.at_noon)).
Defined.

(** C9, as stated, fails: with an annotation whose creation date is NULL
    the date line of that record is the time of the run, so two runs over
    the same store at different times write different documents. *)
Lemma export_differs_between_runs :
  let s := Sample.fresh (Sample.annotations Sample.dated_and_undated)
             (Sample.library [Sample.dune]) Sample.at_noon in
  let first := export_to_markdown "out.md" None (set_clock Sample.at_noon 0 s) in
  let second := export_to_markdown "out.md" None (set_clock Sample.at_night 0 s) in
  fst first = Ok tt /\ fst second = Ok tt
  /\ contains "- Date: 2023-11-14 22:13:20" (read_document (snd first) "out.md") = true
  /\ contains "- Date: 2023-11-15 09:20:00" (read_document (snd second) "out.md") = true
  /\ read_document (snd first) "out.md" <> read_document (snd second) "out.md".
Proof.
  intros s first second.
  split; [vm_compute; reflexivity|]. split; [vm_compute; reflexivity|].
  split; [vm_compute; reflexivity|]. split; [vm_compute; reflexivity|].
  vm_compute. discriminate.
Qed.

(** * Properties of the rest of the program *)

(** ** _get_database_path: which database is chosen *)

Lemma foldl_assign (found : option string) (l : list string) :
  foldl (fun _ db_path => Some db_path) found l
  = match last l with Some p => Some p | None => found end.
Proof.
  revert found. induction l as [|x l IH]; intros found; [reflexivity|].
  cbn [foldl]. rewrite IH, last_cons. destruct (last l); reflexivity.
Qed.

Lemma search_last w container patterns found :
  search w container patterns found
  = match last (concat (map (glob w container) patterns)) with
    | Some p => Some p
    | None => found
    end.
Proof.
  unfold search. revert found.
  induction patterns as [|pattern rest IH]; intros found; [reflexivity|].
  cbn [foldl]. rewrite IH, foldl_assign. cbn [map]. rewrite concat_cons, last_app.
  destruct (last (concat (map (glob w container) rest))); reflexivity.
Qed.

(** The loop over the book containers, started with [dbs]. *)
Lemma containers_loop_last w (ds : list (string * bool)) (dbs : option string * option string) :
  foldl (fun dbs d =>
           let container := joinpath (containers_path w) (fst d) in
           (search w container annotation_patterns (fst dbs),
            search w container library_patterns (snd dbs))) dbs ds
  = (match last (concat (map (fun d => concat (map (glob w (joinpath (containers_path w) (fst d)))
                                                   annotation_patterns)) ds)) with
     | Some p => Some p
     | None => fst dbs
     end,
     match last (concat (map (fun d => concat (map (glob w (joinpath (containers_path w) (fst d)))
                                                   library_patterns)) ds)) with
     | Some p => Some p
     | None => snd dbs
     end).
Proof.
  revert dbs. induction ds as [|d ds IH]; intros [a b]; [reflexivity|].
  cbn [foldl]. rewrite IH. cbn [fst snd map]. rewrite !concat_cons, !last_app, !search_last.
  f_equal;
    repeat match goal with |- context [last ?l] => destruct (last l) end; reflexivity.
Qed.

(** X1. The annotation database chosen is the last path the search finds
    (book containers in listing order, [BKAnnotation] before [AEAnnotation]
    inside a container), and the default path when it finds none; the
    library database is the last library path found, and none otherwise. *)
Theorem get_database_path_last_found (machine : platform) (w : disk) :
  _get_database_path machine w
  = (match last (matches machine w annotation_patterns) with
     | Some p => p
     | None => default_annotation_db w
     end,
     last (matches machine w library_patterns)).
Proof.
  unfold _get_database_path, matches. cbv zeta. rewrite containers_loop_last.
  cbn [fst snd]. f_equal.
  - destruct (last _); reflexivity.
  - destruct (last _); reflexivity.
Qed.

Lemma matches_agree machine w w' patterns :
  home w = home w' -> containers w = containers w' ->
  (forall d pattern,
      d ∈ containers w -> is_book_container machine d = true ->
      glob w (joinpath (containers_path w) (fst d)) pattern
      = glob w' (joinpath (containers_path w') (fst d)) pattern) ->
  matches machine w patterns = matches machine w' patterns.
Proof.
  intros Hh Hc Hg. unfold matches. rewrite <- Hc. f_equal.
  apply map_ext_in. intros d Hd. apply list_elem_of_In in Hd.
  apply list_elem_of_filter in Hd as [Hb Hd]. f_equal.
  apply map_ext. intros pattern. apply Hg; assumption.
Qed.

(** X2. Only the directories whose lower-cased name contains book, bk or
    annotation are searched: two disks that agree on the home directory, on
    the listing of the containers and on what [glob] finds inside those
    directories give the same two paths, whatever the other entries hold. *)
Theorem get_database_path_book_containers_only (machine : platform) (w w' : disk) :
  home w = home w' -> containers w = containers w' ->
  (forall d pattern,
      d ∈ containers w -> is_book_container machine d = true ->
      glob w (joinpath (containers_path w) (fst d)) pattern
      = glob w' (joinpath (containers_path w') (fst d)) pattern) ->
  _get_database_path machine w = _get_database_path machine w'.
Proof.
  intros Hh Hc Hg. unfold _get_database_path. cbv zeta.
  rewrite !containers_loop_last. cbn [fst snd].
  pose proof (matches_agree machine w w' annotation_patterns Hh Hc Hg) as Ha.
  pose proof (matches_agree machine w w' library_patterns Hh Hc Hg) as Hl.
  unfold matches in Ha, Hl. rewrite Ha, Hl.
  unfold default_annotation_db. rewrite Hh. reflexivity.
Qed.

Lemma get_database_path_book_containers_only_witness :
  _get_database_path Sample.utc (Sample.mac Sample.books_glob)
  = _get_database_path Sample.utc (Sample.mac Sample.browser_glob).
Proof.
  apply get_database_path_book_containers_only; [reflexivity | reflexivity |].
  intros d pattern Hd Hb.
  repeat (apply elem_of_cons in Hd as [->|Hd]); [reflexivity | discriminate Hb | reflexivity |].
  apply elem_of_nil in Hd. destruct Hd.
Defined.

(** ** get_book_title: failures are swallowed *)

(** X3. [get_book_title] never raises and never changes the state: the
    outer handler turns every failure into [None]; in particular a library
    file that is not a SQLite database makes every lookup answer [None]. *)
Theorem get_book_title_never_raises (asset_id : string) (s : state) :
  (exists title, get_book_title asset_id s = (Ok title, s))
  /\ (forall content, library_conn s = Some (Document content) ->
                      get_book_title asset_id s = (Ok None, s)).
Proof.
  split.
  - unfold get_book_title. destruct (library_conn s) as [conn|]; [|eauto].
    destruct (try_queries conn asset_id queries); eauto.
  - intros content H. unfold get_book_title. rewrite H. reflexivity.
Qed.

Lemma get_book_title_never_raises_witness :
  let s := Sample.connected (Sample.annotations []) (Document "not a database") Sample.at_noon in
  get_book_title "A1" s = (Ok None, s).
Proof.
  intros s.
  apply (proj2 (get_book_title_never_raises "A1" s) "not a database"). reflexivity.
Defined.

(** ** The title of a primary record *)

Lemma shown_title_cases book_id title :
  shown_title book_id title
  = if truthy_str book_id && truthy_str title then fmt_str title else placeholder book_id.
Proof.
  unfold shown_title, placeholder. destruct book_id as [id|]; [|reflexivity].
  simpl. destruct (String.eqb id ""); simpl; [reflexivity|].
  destruct (truthy_str title); reflexivity.
Qed.

Lemma append_nonempty a b : a <> "" -> a +:+ b <> "".
Proof. destruct a; [congruence | discriminate]. Qed.

Lemma shown_title_nonempty book_id title : shown_title book_id title <> "".
Proof.
  unfold shown_title. destruct (truthy_str book_id); [|discriminate].
  destruct title as [t|]; simpl; [|discriminate].
  destruct (String.eqb t "") eqn:E; simpl; [discriminate|].
  apply String.eqb_neq, E.
Qed.

Lemma resolve_title_unresolved row s :
  truthy_str (row_book_id row) = false -> resolve_title row s = (Ok None, s).
Proof.
  unfold resolve_title. destruct (row_book_id row) as [id|]; [|reflexivity].
  intros ->. reflexivity.
Qed.

(** What [resolve_title] answers does not depend on the state the
    timestamp conversion leaves. *)
Lemma process_row_title filter_title row s r s' :
  process_row filter_title row s = (Ok r, s') ->
  exists created title,
    fst (resolve_title row s) = Ok title
    /\ library_conn s' = library_conn s
    /\ r = if skipped (os s) filter_title title then None
           else Some {| text := annotation_text row;
                        created_at := created;
                        book_title := shown_title (row_book_id row) title;
                        chapter := None;
                        note := Some (annotation_note row) |}.
Proof.
  intros H. apply process_row_inv in H as (created & title & Hc & Ht & Hr).
  exists created, title.
  apply convert_timestamp_inv in Hc as [(_ & -> & _)|(_ & -> & _)].
  - rewrite Ht. auto.
  - rewrite resolve_title_tick in Ht. injection Ht as Ht. auto.
Qed.

(** X4. The title of a record built from a primary row is never empty:
    it is the resolved title when that is a non-empty string, and otherwise
    the placeholder, [Book ID: ] followed by the asset id, or
    [Unknown Book] for a row whose asset id is NULL or empty. *)
Theorem process_row_book_title
  (filter_title : option string) (row : annotation) (s s' : state) (h : Highlight) :
  process_row filter_title row s = (Ok (Some h), s') ->
  book_title h <> ""
  /\ exists title,
       fst (resolve_title row s) = Ok title
       /\ (forall t, title = Some t -> t <> "" -> book_title h = t)
       /\ (truthy_str title = false -> book_title h = placeholder (row_book_id row)).
Proof.
  intros H. apply process_row_title in H as (created & title & Ht & _ & Hr).
  destruct (skipped (os s) filter_title title); [discriminate|]. injection Hr as ->. simpl.
  split; [apply shown_title_nonempty|].
  exists title. split; [exact Ht|]. rewrite shown_title_cases. split.
  - intros t -> Hne. apply String.eqb_neq in Hne.
    destruct (truthy_str (row_book_id row)) eqn:E.
    + simpl. rewrite Hne. reflexivity.
    + rewrite (resolve_title_unresolved _ _ E) in Ht. discriminate.
  - intros ->. rewrite andb_false_r. reflexivity.
Qed.

Lemma process_row_book_title_witness :
  let s := Sample.connected (Sample.annotations []) (Sample.library [Sample.dune]) Sample.at_noon in
  let h := {| text := "spice"; created_at := 978307300000000; book_title := "Book ID: B7";
              chapter := None; note := Some "" |} in
  process_row None (Sample.row "spice" (Some 100) (Some "B7")) s = (Ok (Some h), s)
  /\ book_title h <> ""
  /\ exists title,
       fst (resolve_title (Sample.row "spice" (Some 100) (Some "B7")) s) = Ok title
       /\ (forall t, title = Some t -> t <> "" -> book_title h = t)
       /\ (truthy_str title = false -> book_title h = placeholder (Some "B7")).
Proof.
  intros s h.
  assert (H : process_row None (Sample.row "spice" (Some 100) (Some "B7")) s = (Ok (Some h), s))
    by reflexivity.
  split; [exact H|].
  exact (process_row_book_title None (Sample.row "spice" (Some 100) (Some "B7")) s s h H).
Defined.

(** X5. Without a library connection no title is resolved: every row is
    kept, whatever the filter, and its record carries the placeholder
    title. *)
Theorem process_row_without_library
  (filter_title : option string) (row : annotation) (s s' : state) (r : option Highlight) :
  library_conn s = None ->
  process_row filter_title row s = (Ok r, s') ->
  exists h, r = Some h /\ book_title h = placeholder (row_book_id row).
Proof.
  intros Hlib H. apply process_row_title in H as (created & title & Ht & _ & Hr).
  assert (title = None) as ->.
  { unfold resolve_title in Ht. destruct (row_book_id row) as [id|]; [|injection Ht as <-; reflexivity].
    destruct (truthy_str (Some id)); [|injection Ht as <-; reflexivity].
    unfold get_book_title in Ht. rewrite Hlib in Ht. injection Ht as <-. reflexivity. }
  assert (Hs : skipped (os s) filter_title None = false) by (destruct filter_title; reflexivity).
  rewrite Hs in Hr. rewrite Hr. eexists. split; [reflexivity|].
  simpl. rewrite shown_title_cases, andb_false_r. reflexivity.
Qed.

Lemma process_row_without_library_witness :
  let s := set_library_conn None
             (Sample.connected (Sample.annotations []) (Sample.library [Sample.dune])
                Sample.at_noon) in
  exists h, Some {| text := "spice"; created_at := 978307300000000; book_title := "Book ID: A1";
                    chapter := None; note := Some "" |} = Some h
            /\ book_title h = placeholder (Some "A1").
Proof.
  intros s.
  apply (process_row_without_library (Some "Foundation")
           (Sample.row "spice" (Some 100) (Some "A1")) s s); reflexivity.
Defined.

(** ** The rows of the primary query *)

Lemma insert_desc_Permutation {A} (key : A -> option number) x l :
  Permutation (insert_desc key x l) (x :: l).
Proof.
  induction l as [|y r IH]; simpl; [reflexivity|].
  destruct (sql_lt (key x) (key y)); [|reflexivity].
  rewrite IH. apply perm_swap.
Qed.

Lemma order_by_desc_Permutation {A} (key : A -> option number) l :
  Permutation (order_by_desc key l) l.
Proof.
  induction l as [|x l IH]; simpl; [reflexivity|].
  rewrite insert_desc_Permutation, IH. reflexivity.
Qed.

Lemma select_annotation_kept r :
  kept r <-> exists a, select_annotation r = Some a.
Proof.
  unfold kept, select_annotation. split.
  - intros [Ht Hd]. destruct (ZANNOTATIONSELECTEDTEXT r) as [t|]; [|congruence].
    rewrite bool_decide_eq_true_2 by exact Hd. eauto.
  - intros [a H]. destruct (ZANNOTATIONSELECTEDTEXT r) as [t|]; [|discriminate].
    destruct (bool_decide (ZANNOTATIONDELETED r = Some 0)) eqn:E; [|discriminate].
    apply bool_decide_eq_true in E. split; [discriminate | exact E].
Qed.

(** X6. When the primary query succeeds, its rows are, up to order, the
    rows of [ZAEANNOTATION] whose selected text is not NULL and whose
    deleted flag is 0, each once: a deleted annotation, or one without
    text, never appears, and no other is lost; the rows stand by creation
    date, latest first and NULL last. *)
Theorem primary_query_rows (conn : file) (rs : list annotation) :
  primary_query conn = Ok rs ->
  exists db t,
    conn = Sqlite db /\ ZAEANNOTATION db = Some t
    /\ Permutation rs (omap select_annotation (rows t))
    /\ (forall a, a ∈ rs <-> exists r, r ∈ rows t /\ kept r /\ select_annotation r = Some a)
    /\ StronglySorted (sql_ge row_created_at) rs.
Proof.
  unfold primary_query. destruct conn as [db|content|]; simpl; [|discriminate|discriminate].
  unfold from_table. destruct (ZAEANNOTATION db) as [t|] eqn:Et; [|discriminate].
  destruct (has_columns annotation_columns t); [|discriminate].
  intros H. injection H as <-. exists db, t.
  split; [reflexivity|]. split; [exact Et|].
  split; [apply order_by_desc_Permutation|]. split.
  - intros a. rewrite order_by_desc_Permutation, list_elem_of_omap. split.
    + intros (r & Hr & Ha). exists r. split; [exact Hr|].
      split; [apply select_annotation_kept; eauto | exact Ha].
    + intros (r & Hr & _ & Ha). eauto.
  - apply order_by_desc_sorted.
Qed.

Lemma primary_query_rows_witness :
  exists db t,
    Sample.annotations Sample.two_dated = Sqlite db /\ ZAEANNOTATION db = Some t
    /\ Permutation [Sample.row "newer" (Some 200) (Some "A1");
                    Sample.row "older" (Some 100) (Some "A1")]
                   (omap select_annotation (rows t))
    /\ (forall a, a ∈ [Sample.row "newer" (Some 200) (Some "A1");
                       Sample.row "older" (Some 100) (Some "A1")]
                  <-> exists r, r ∈ rows t /\ kept r /\ select_annotation r = Some a)
    /\ StronglySorted (sql_ge row_created_at)
         [Sample.row "newer" (Some 200) (Some "A1"); Sample.row "older" (Some 100) (Some "A1")].
Proof.
  apply (primary_query_rows (Sample.annotations Sample.two_dated)). reflexivity.
Defined.

(** ** The loop over the primary rows *)

Lemma filtered_no_filter machine filter_title title_of rs hs :
  truthy_str filter_title = false ->
  filtered machine filter_title title_of rs hs ->
  text <$> hs = annotation_text <$> rs.
Proof.
  intros Hf. induction 1 as [|row rows hs Hx _ IH|row rows h hs _ Hr _ IH].
  - reflexivity.
  - destruct Hx as (f & t & -> & Hne & _). simpl in Hf.
    apply String.eqb_neq in Hne. rewrite Hne in Hf. discriminate.
  - rewrite !fmap_cons, IH. destruct Hr as (-> & _). reflexivity.
Qed.

(** X7. The records of the primary path are, in the order of the query's
    rows, the records of exactly the rows the filter does not exclude: the
    record of a row carries the row's text, its title or placeholder, no
    chapter and the row's note.  Without a filter (none given, or the empty
    string) there is one record for every row, so that the primary path comes
    out empty only when the query returns no row. *)
Theorem primary_keeps_rows
  (filter_title : option string) (conn : file) (rs : list annotation)
  (s s' : state) (found : option (list Highlight)) :
  primary_query conn = Ok rs ->
  primary filter_title conn s = (Ok found, s') ->
  filtered (os s) filter_title (title_in s) rs (default [] found)
  /\ (found = None <-> default [] found = [])
  /\ (truthy_str filter_title = false ->
      text <$> default [] found = annotation_text <$> rs /\ (found = None <-> rs = [])).
Proof.
  intros Hq H. unfold primary in H.
  apply bind_inv in H as (rs' & s1 & Hl & H).
  unfold lift in Hl. rewrite Hq in Hl. injection Hl as <- <-.
  apply bind_inv in H as (hs & s2 & Hc & H).
  apply collect_filtered in Hc as (new & -> & Hnew). simpl in H.
  assert (Hd : default [] found = new).
  { destruct new; unfold ret in H; injection H as <- _; reflexivity. }
  assert (Hn : found = None <-> new = []).
  { destruct new; unfold ret in H; injection H as <- _; split; congruence. }
  rewrite Hd. split; [exact Hnew|]. split; [exact Hn|].
  intros Hf. pose proof (filtered_no_filter _ _ _ _ _ Hf Hnew) as Hall.
  split; [exact Hall|]. rewrite Hn.
  destruct new, rs; try discriminate Hall; split; congruence.
Qed.

Lemma primary_keeps_rows_witness :
  let s := Sample.connected (Sample.annotations [])
             (Sample.library [Sample.dune; Sample.foundation]) Sample.at_noon in
  let newer := {| text := "newer"; created_at := 978307400000000; book_title := "Dune";
                  chapter := None; note := Some "" |} in
  filtered Sample.utc (Some "dune") (title_in s)
    [Sample.row "newer" (Some 200) (Some "A1"); Sample.row "older" (Some 100) (Some "F1")]
    (default [] (Some [newer])).
Proof.
  intros s newer.
  apply (primary_keeps_rows (Some "dune")
           (Sample.annotations [ Sample.ann "older" (Some 100) (Some "F1");
                                 Sample.ann "newer" (Some 200) (Some "A1") ])
           _ s s (Some [newer])); reflexivity.
Defined.

(** ** The empty filter *)

Lemma process_row_empty_filter row s :
  process_row (Some "") row s = process_row None row s.
Proof.
  unfold process_row. apply bind_ext; [reflexivity|]. intros created s1.
  apply bind_ext; [reflexivity|]. intros title s2.
  apply bind_ext; [reflexivity|]. intros machine s3.
  rewrite !skipped_no_filter by reflexivity. reflexivity.
Qed.

Lemma collect_empty_filter rs :
  forall acc s, collect (Some "") rs acc s = collect None rs acc s.
Proof.
  induction rs as [|row rest IH]; intros acc s; [reflexivity|].
  cbn [collect]. apply bind_ext; [reflexivity|]. intros _ s0.
  apply bind_ext; [apply process_row_empty_filter|].
  intros h s1. apply IH.
Qed.

Lemma book_info_query_empty_filter conn :
  book_info_query conn (Some "") = book_info_query conn None.
Proof. reflexivity. Qed.

Lemma get_book_info_empty_filter s :
  _get_book_info (Some "") s = _get_book_info None s.
Proof. reflexivity. Qed.

Lemma get_highlights_no_filter s :
  get_highlights (Some "") s = get_highlights None s.
Proof.
  unfold get_highlights.
  apply bind_ext; [reflexivity|]. intros _ s1.
  apply bind_ext; [reflexivity|]. intros conn s2.
  apply bind_ext; [reflexivity|]. intros _ s3.
  apply bind_ext.
  - unfold except_OperationalError, primary.
    assert (E : forall s4, bind (lift (primary_query conn))
                             (fun rs => bind (collect (Some "") rs [])
                                (fun highlights => match highlights with
                                                   | [] => ret None
                                                   | _ :: _ => ret (Some highlights)
                                                   end)) s4
                           = bind (lift (primary_query conn))
                               (fun rs => bind (collect None rs [])
                                  (fun highlights => match highlights with
                                                     | [] => ret None
                                                     | _ :: _ => ret (Some highlights)
                                                     end)) s4).
    { intros s4. apply bind_ext; [reflexivity|]. intros rs s5.
      apply bind_ext; [apply collect_empty_filter | reflexivity]. }
    rewrite E. reflexivity.
  - intros [hs|] s4; [reflexivity | apply get_book_info_empty_filter].
Qed.

Lemma export_to_markdown_no_filter output_path s :
  export_to_markdown output_path (Some "") s = export_to_markdown output_path None s.
Proof.
  unfold export_to_markdown. apply bind_ext; [apply get_highlights_no_filter | reflexivity].
Qed.

(** X8. An empty filter is no filter: [get_highlights] and
    [export_to_markdown] given the empty string behave, on every state, as
    they do when given no title at all. *)
Theorem get_highlights_empty_filter (output_path : string) (s : state) :
  get_highlights (Some "") s = get_highlights None s
  /\ export_to_markdown output_path (Some "") s = export_to_markdown output_path None s.
Proof.
  split; [apply get_highlights_no_filter | apply export_to_markdown_no_filter].
Qed.

(** ** The records of the fallback *)

Lemma collect_book_info_records rs :
  forall acc s hs s',
    collect_book_info rs acc s = (Ok hs, s') ->
    exists new,
      hs = acc ++ new
      /\ book_title <$> new = info_book_title <$> rs
      /\ text <$> new = book_info_text <$> rs
      /\ Forall (fun h => chapter h <> Some "" /\ note h <> Some "") new.
Proof.
  induction rs as [|row rest IH]; intros acc s hs s' H.
  - simpl in H. unfold ret in H. injection H as <- <-.
    exists []. rewrite app_nil_r. repeat split; constructor.
  - cbn [collect_book_info] in H. apply bind_inv in H as ([] & s0 & _ & H).
    apply bind_inv in H as (h & s1 & Hh & H).
    unfold book_info_highlight in Hh.
    apply bind_inv in Hh as (created & s2 & _ & Hh). unfold ret in Hh. injection Hh as <- <-.
    apply IH in H as (new & -> & Ht & Hx & Hn).
    eexists (_ :: new). split; [rewrite <- app_assoc; reflexivity|].
    rewrite !fmap_cons, Ht, Hx. split; [reflexivity|]. split; [reflexivity|].
    constructor; [|exact Hn]. simpl. split.
    + destruct (info_genre row) as [g|]; simpl; [|discriminate].
      destruct (String.eqb g "") eqn:E; simpl; [discriminate|].
      apply String.eqb_neq in E. congruence.
    + unfold book_info_note. destruct (_ || _); discriminate.
Qed.

(** X9. The fallback builds one record for every row of its query, in
    the order of the rows: the record has the row's title and its progress
    line, and its chapter and its note are absent rather than empty.  It
    returns only if there is a library connection. *)
Theorem get_book_info_records
  (filter_title : option string) (s s' : state) (hs : list Highlight) :
  _get_book_info filter_title s = (Ok hs, s') ->
  exists conn rs,
    library_conn s = Some conn
    /\ book_info_query conn filter_title = Ok rs
    /\ book_title <$> hs = info_book_title <$> rs
    /\ text <$> hs = book_info_text <$> rs
    /\ Forall (fun h => chapter h <> Some "" /\ note h <> Some "") hs.
Proof.
  unfold _get_book_info. destruct (library_conn s) as [conn|]; [|discriminate].
  intros H. apply bind_inv in H as (rs & s1 & Hq & H).
  unfold lift in Hq. injection Hq as Hq <-.
  apply collect_book_info_records in H as (new & -> & Ht & Hx & Hn).
  exists conn, rs. auto.
Qed.

Lemma get_book_info_records_witness :
  let s := Sample.connected (Sample.annotations [])
             (Sample.library [Sample.foundation; Sample.dune]) Sample.at_noon in
  exists hs,
    _get_book_info None s = (Ok hs, s)
    /\ book_title <$> hs = ["Dune"; "Foundation"]
    /\ exists conn rs,
         library_conn s = Some conn
         /\ book_info_query conn None = Ok rs
         /\ book_title <$> hs = info_book_title <$> rs
         /\ text <$> hs = book_info_text <$> rs
         /\ Forall (fun h => chapter h <> Some "" /\ note h <> Some "") hs.
Proof.
  intros s.
  exists (match fst (_get_book_info None s) with Ok hs => hs | Raise _ => [] end).
  assert (H : _get_book_info None s
              = (Ok (match fst (_get_book_info None s) with Ok hs => hs | Raise _ => [] end), s))
    by reflexivity.
  split; [exact H|]. split; [reflexivity|].
  exact (get_book_info_records None s s _ H).
Defined.

(** ** The filter of the fallback *)











(** ** main *)



Lemma characters_ascii_cons c r :
  is_ascii_char c = true -> characters (String c r) = String c "" :: characters r.
Proof.
  intros H. simpl. destruct (characters r) as [|[|d ch] rest]; rewrite ?H; reflexivity.
Qed.

Lemma isspace_ascii c : isspace c = true -> is_ascii_char c = true.
Proof. destruct c as [[] [] [] [] [] [] [] []]; try reflexivity; discriminate. Qed.

(** A line of ASCII white space is a line of white space on every
    machine. *)
Lemma characters_blank machine line :
  forallb isspace (list_ascii_of_string line) = true ->
  Forall (fun ch => char_isspace machine ch = true) (characters line).
Proof.
  induction line as [|c line IH]; [constructor|].
  simpl list_ascii_of_string. cbn [forallb]. intros H. apply andb_true_iff in H as [Hc H].
  rewrite (characters_ascii_cons _ _ (isspace_ascii _ Hc)).
  constructor; [|exact (IH H)].
  unfold char_isspace. rewrite (isspace_ascii _ Hc). exact Hc.
Qed.

Lemma dropwhile_all {A} (p : A -> bool) l :
  Forall (fun x => p x = true) l -> dropwhile p l = [].
Proof. induction 1 as [|x l Hx _ IH]; [reflexivity|]. simpl. rewrite Hx. exact IH. Qed.

Lemma strip_blank machine line :
  Forall (fun ch => char_isspace machine ch = true) (characters line) ->
  strip machine line = "".
Proof. intros H. unfold strip. rewrite (dropwhile_all _ _ H). reflexivity. Qed.

(** X16. An input line of white space only (the empty line included)
    asks for every book: [main] then runs the export without a filter, into
    [book_highlights_all.md] on the desktop. *)
Theorem main_blank_input
  (machine : platform) (w : disk) (line : string) (fs : gmap string file)
  (c : nat -> datetime) :
  Forall (fun ch => char_isspace machine ch = true) (characters line) ->
  main machine w line fs c
  = report_of (joinpath (joinpath (home w) "Desktop") "book_highlights_all.md")
      (export_to_markdown (joinpath (joinpath (home w) "Desktop") "book_highlights_all.md")
         None (__init__ machine w fs c)).
Proof.
  intros H. unfold main. cbv zeta. rewrite (strip_blank _ _ H).
  change (output_path machine w "")
    with (joinpath (joinpath (home w) "Desktop") "book_highlights_all.md").
  rewrite export_to_markdown_no_filter. reflexivity.
Qed.

Lemma main_blank_input_witness :
  main Sample.utc Sample.empty_disk "  " ∅ Sample.at_noon
  = report_of "/Users/me/Desktop/book_highlights_all.md"
      (export_to_markdown "/Users/me/Desktop/book_highlights_all.md" None
         (__init__ Sample.utc Sample.empty_disk ∅ Sample.at_noon)).
Proof.
  apply (main_blank_input Sample.utc Sample.empty_disk "  ").
  apply characters_blank. reflexivity.
Defined.

Lemma contains_slash_cons ch s :
  contains "/" (String ch s) = Ascii.eqb "/" ch || contains "/" s.
Proof. simpl. rewrite andb_true_r. reflexivity. Qed.

Lemma contains_slash_app a b :
  contains "/" a = false -> contains "/" b = false -> contains "/" (a +:+ b) = false.
Proof.
  intros Ha Hb. induction a as [|ch a IH]; [exact Hb|].
  change (String ch a +:+ b) with (String ch (a +:+ b)).
  rewrite contains_slash_cons in Ha |- *.
  apply orb_false_iff in Ha as [Hc Ha]. rewrite Hc, (IH Ha). reflexivity.
Qed.

(** A character is one byte, or a byte that is not ASCII followed by
    continuation bytes. *)
Lemma characters_shape s :
  Forall (fun ch => exists c tail,
            ch = String c tail
            /\ (tail = ""
                \/ is_ascii_char c = false
                   /\ forallb is_continuation (list_ascii_of_string tail) = true))
         (characters s).
Proof.
  induction s as [|c r IH]; [constructor|].
  simpl. destruct (characters r) as [|[|d ch] rest].
  - repeat constructor. exists c, "". auto.
  - constructor; [exists c, ""; auto | exact IH].
  - apply Forall_cons in IH as [(d' & tail & E & Ht) IH]. injection E as <- <-.
    destruct (negb (is_ascii_char c) && is_continuation d) eqn:Hm.
    + apply andb_true_iff in Hm as [Hc Hd]. apply negb_true_iff in Hc.
      constructor; [|exact IH].
      exists c, (String d ch). split; [reflexivity|]. right. split; [exact Hc|].
      simpl. rewrite Hd. destruct Ht as [->|[_ Ht]]; [reflexivity | exact Ht].
    + constructor; [exists c, ""; auto|].
      constructor; [exists d, ch; auto | exact IH].
Qed.

Lemma continuation_no_slash tail :
  forallb is_continuation (list_ascii_of_string tail) = true -> contains "/" tail = false.
Proof.
  induction tail as [|b tail IH]; [reflexivity|].
  simpl list_ascii_of_string. cbn [forallb]. intros H. apply andb_true_iff in H as [Hb H].
  rewrite contains_slash_cons, (IH H).
  destruct b as [[] [] [] [] [] [] [] []]; try reflexivity; discriminate.
Qed.

Lemma safe_char_no_slash machine ch :
  (exists c tail,
      ch = String c tail
      /\ (tail = ""
          \/ is_ascii_char c = false
             /\ forallb is_continuation (list_ascii_of_string tail) = true)) ->
  safe_char machine ch = true -> contains "/" ch = false.
Proof.
  intros (c & tail & -> & [->|[Hc Ht]]) H.
  - destruct (Ascii.eqb_spec "/" c) as [<-|Hne]; [discriminate H|].
    rewrite contains_slash_cons. apply Ascii.eqb_neq in Hne. rewrite Hne. reflexivity.
  - rewrite contains_slash_cons, (continuation_no_slash _ Ht).
    destruct c as [[] [] [] [] [] [] [] []]; try reflexivity; discriminate.
Qed.

Lemma safe_title_no_slash machine book_title :
  contains "/" (safe_title machine book_title) = false.
Proof.
  unfold safe_title. pose proof (characters_shape book_title) as H.
  induction H as [|ch chs Hch _ IH]; [reflexivity|].
  rewrite filter_cons. destruct (decide (safe_char machine ch = true)) as [E|E]; [|exact IH].
  rewrite concat_empty_cons.
  apply contains_slash_app; [exact (safe_char_no_slash _ _ Hch E) | exact IH].
Qed.

(** X17. The output file is always a file of the desktop directory
    itself: its name starts with [book_highlights_] and holds no path
    separator, whatever title was typed. *)
Theorem output_path_in_desktop (machine : platform) (w : disk) (book_title : string) :
  exists name,
    output_path machine w book_title = joinpath (joinpath (home w) "Desktop") name
    /\ startswith "book_highlights_" name = true
    /\ contains "/" name = false.
Proof.
  unfold output_path. destruct (truthy_str (Some book_title)).
  - exists ("book_highlights_" +:+ safe_title machine book_title +:+ ".md").
    split; [reflexivity|]. split; [apply startswith_app|].
    apply contains_slash_app; [reflexivity|].
    apply contains_slash_app; [apply safe_title_no_slash | reflexivity].
  - exists "book_highlights_all.md". repeat split.
Qed.

Lemma get_database_path_default machine w :
  matches machine w annotation_patterns = [] ->
  fst (_get_database_path machine w) = default_annotation_db w.
Proof.
  intros H. unfold _get_database_path. cbv zeta. rewrite containers_loop_last.
  unfold matches in H. cbn [fst]. rewrite H. reflexivity.
Qed.

Lemma get_database_path_no_library machine w :
  matches machine w library_patterns = [] -> snd (_get_database_path machine w) = None.
Proof.
  intros H. unfold _get_database_path. cbv zeta. rewrite containers_loop_last.
  unfold matches in H. cbn [snd]. rewrite H. reflexivity.
Qed.

(** X18. When the search finds no annotation database and there is no
    file at the default path, [main] reports the missing file through its
    first handler, and the extractor and the disk are as the constructor
    left them. *)
Theorem main_store_not_found
  (machine : platform) (w : disk) (line : string) (fs : gmap string file)
  (c : nat -> datetime) :
  matches machine w annotation_patterns = [] ->
  fs !! default_annotation_db w = None ->
  main machine w line fs c = (Error FileNotFoundError, __init__ machine w fs c).
Proof.
  intros Hm Hf. unfold main. cbv zeta.
  assert (E : export_to_markdown (output_path machine w (strip machine line))
                (Some (strip machine line)) (__init__ machine w fs c)
              = (Raise FileNotFoundError, __init__ machine w fs c)).
  { unfold export_to_markdown, get_highlights.
    apply bind_Raise. apply bind_Raise.
    unfold ensure_connected.
    change (annotation_conn (__init__ machine w fs c)) with (@None file).
    apply connect_missing.
    change (fs !! fst (_get_database_path machine w) = None).
    rewrite (get_database_path_default machine w Hm). exact Hf. }
  rewrite E. reflexivity.
Qed.

Lemma main_store_not_found_witness :
  main Sample.utc Sample.empty_disk "Dune" ∅ Sample.at_noon
  = (Error FileNotFoundError, __init__ Sample.utc Sample.empty_disk ∅ Sample.at_noon).
Proof. apply main_store_not_found; reflexivity. Defined.

(** X19. When no library database is found and the primary query yields
    no row, or fails on the schema, [main] ends in its last handler with the
    [AttributeError] of the fallback, whatever title was typed, and writes
    no file. *)
Theorem main_without_library
  (machine : platform) (w : disk) (line : string) (fs : gmap string file)
  (c : nat -> datetime) (db : database) :
  matches machine w library_patterns = [] ->
  fs !! fst (_get_database_path machine w) = Some (Sqlite db) ->
  primary_query (Sqlite db) = Ok [] \/ primary_query (Sqlite db) = Raise OperationalError ->
  fst (main machine w line fs c) = Unexpected_error AttributeError
  /\ files (snd (main machine w line fs c)) = fs.
Proof.
  intros Hm Hf Hq. unfold main. cbv zeta.
  set (s0 := __init__ machine w fs c).
  set (s1 := set_annotation_conn (Some (Sqlite db)) s0).
  assert (Hc : ensure_connected s0 = (Ok tt, s1)).
  { unfold ensure_connected. change (annotation_conn s0) with (@None file).
    unfold connect. change (files s0 !! annotation_db_path s0)
      with (fs !! fst (_get_database_path machine w)). rewrite Hf.
    change (library_db_path s0) with (snd (_get_database_path machine w)).
    rewrite (get_database_path_no_library machine w Hm). reflexivity. }
  assert (Hp : except_OperationalError
                 (primary (Some (strip machine line)) (Sqlite db)) (ret None) s1
               = (Ok None, s1)).
  { unfold except_OperationalError, primary, bind, lift.
    destruct Hq as [-> | ->]; reflexivity. }
  assert (E : export_to_markdown (output_path machine w (strip machine line))
                (Some (strip machine line)) s0
              = (Raise AttributeError, s1)).
  { unfold export_to_markdown. apply bind_Raise.
    rewrite (get_highlights_connected _ s0 s1 (Sqlite db) Hc eq_refl) by (simpl; eauto).
    rewrite (bind_Ok _ _ _ _ _ Hp). reflexivity. }
  rewrite E. split; reflexivity.
Qed.

Lemma main_without_library_witness :
  let fs := <[default_annotation_db Sample.empty_disk := Sample.annotations []]> ∅ in
  fst (main Sample.utc Sample.empty_disk "" fs Sample.at_noon) = Unexpected_error AttributeError
  /\ files (snd (main Sample.utc Sample.empty_disk "" fs Sample.at_noon)) = fs.
Proof.
  intros fs.
  apply (main_without_library Sample.utc Sample.empty_disk "" fs Sample.at_noon
           {| ZAEANNOTATION := Some {| columns := annotation_columns; rows := [] |};
              ZBKLIBRARYASSET := None;
              ZBKLIBRARY := None |});
    [reflexivity | reflexivity | left; reflexivity].
Defined.

(** ** The order of the fallback *)

Lemma book_info_query_sorted conn filter_title rs :
  truthy_str filter_title = false ->
  book_info_query conn filter_title = Ok rs ->
  StronglySorted (sql_ge info_last_opened) rs.
Proof.
  intros Hf. unfold book_info_query.
  destruct (database_of conn) as [db|]; [|discriminate].
  destruct (from_table _ _) as [rows0|]; [|discriminate].
  destruct filter_title as [f|]; [rewrite Hf|];
    intros H; injection H as <-; apply order_by_desc_sorted.
Qed.

Lemma book_info_highlight_truthy row s h s' :
  truthy_number (info_last_opened row) = true ->
  book_info_highlight row s = (Ok h, s') ->
  s' = s
  /\ exists t, info_last_opened row = Some t
               /\ local_datetime (os s) (plus_epoch_offset t) = inl (created_at h).
Proof.
  intros Ht H. unfold book_info_highlight in H.
  apply bind_inv in H as (created & s1 & Hc & H). unfold ret in H. injection H as <- <-.
  apply convert_timestamp_inv in Hc as [(_ & -> & t & Hs & Hd)|(Hf & _)]; [|congruence].
  split; [reflexivity|]. simpl. eauto.
Qed.

Lemma collect_book_info_sorted rs0 rs :
  rs ⊆ rs0 ->
  Forall (fun r => truthy_number (info_last_opened r) = true) rs ->
  StronglySorted (sql_ge info_last_opened) rs ->
  forall acc s hs s',
    keeps_order (os s) info_last_opened rs0 = true ->
    collect_book_info rs acc s = (Ok hs, s') ->
    exists new,
      hs = acc ++ new
      /\ StronglySorted (fun x y => created_at y <= created_at x) new
      /\ Forall (fun h => exists r t,
                   r ∈ rs /\ info_last_opened r = Some t
                   /\ local_datetime (os s) (plus_epoch_offset t) = inl (created_at h)) new.
Proof.
  intros Hsub Htruthy Hsorted. revert Hsub.
  induction Hsorted as [|row rest Hrest IH Hrow]; intros Hsub acc s hs s' Hk H.
  - simpl in H. unfold ret in H. injection H as <- <-.
    exists []. rewrite app_nil_r. repeat constructor.
  - apply Forall_cons in Htruthy as [Ht Htruthy].
    cbn [collect_book_info] in H. apply bind_inv in H as ([] & s0 & Hf & H).
    unfold fetch, lift in Hf. injection Hf as _ <-.
    apply bind_inv in H as (h & s1 & Hh & H).
    apply (book_info_highlight_truthy _ _ _ _ Ht) in Hh as [-> (t & Kt & Dt)].
    assert (Hsub' : rest ⊆ rs0) by (intros z Hz; apply Hsub; right; exact Hz).
    apply (IH Htruthy Hsub' _ _ _ _ Hk) in H as (new & -> & Hnew & Hfrom).
    exists (h :: new). split; [rewrite <- app_assoc; reflexivity|]. split.
    + constructor; [exact Hnew|].
      eapply Forall_impl; [exact Hfrom|]. intros h' (r0 & u & Hin & Ku & Du).
      rewrite Forall_forall in Hrow. specialize (Hrow r0 Hin).
      apply (keeps_order_spec _ _ _ Hk row r0 t u _ _); try assumption.
      * apply Hsub. left.
      * apply Hsub. right. exact Hin.
    + constructor; [exists row, t; split; [left | auto]|].
      eapply Forall_impl; [exact Hfrom|]. intros h' (r0 & u & Hin & Hk').
      exists r0, u. split; [right; exact Hin | exact Hk'].
Qed.

(** X20. Without a filter the fallback returns its records by the date
    the book was last opened, latest first, provided no row of its query
    has a null or zero last-opened date and, on the machine of the run, the
    local dates of the rows follow their stored timestamps. *)
Theorem get_book_info_sorted
  (filter_title : option string) (s s' : state) (conn : file)
  (rs : list book_info) (hs : list Highlight) :
  truthy_str filter_title = false ->
  library_conn s = Some conn ->
  book_info_query conn filter_title = Ok rs ->
  Forall (fun r => truthy_number (info_last_opened r) = true) rs ->
  keeps_order (os s) info_last_opened rs = true ->
  _get_book_info filter_title s = (Ok hs, s') ->
  StronglySorted (fun x y => created_at y <= created_at x) hs.
Proof.
  intros Hf Hlib Hq Htruthy Hk H. unfold _get_book_info in H. rewrite Hlib in H.
  apply bind_inv in H as (rs' & s1 & Hl & H).
  unfold lift in Hl. rewrite Hq in Hl. injection Hl as <- <-.
  apply (collect_book_info_sorted rs rs (reflexivity _) Htruthy
           (book_info_query_sorted _ _ _ Hf Hq) _ _ _ _ Hk) in H
    as (new & -> & Hnew & _).
  exact Hnew.
Qed.

Lemma get_book_info_sorted_witness :
  let h t c a := {| text := "No progress data"; created_at := c; book_title := t;
                    chapter := None;
                    note := Some ("Author: " +:+ a +:+ nl +:+ "Description: None") |} in
  StronglySorted (fun x y => created_at y <= created_at x)
    [ h "Dune" 1678307200000000 "Frank Herbert";
      h "Foundation" 1628307200000000 "Isaac Asimov" ].
Proof.
  intros h.
  apply (get_book_info_sorted None
           (Sample.connected (Sample.annotations [])
              (Sample.library [Sample.foundation; Sample.dune]) Sample.at_noon)
           (Sample.connected (Sample.annotations [])
              (Sample.library [Sample.foundation; Sample.dune]) Sample.at_noon)
           (Sample.library [Sample.foundation; Sample.dune])
           [ Sample.info (Some "Frank Herbert") None;
             {| info_book_title := "Foundation"; info_author := Some "Isaac Asimov";
                info_progress := None; info_last_opened := Some (Integer 650000000);
                info_description := None; info_genre := None; info_decodable := true |} ]);
    [reflexivity | reflexivity | reflexivity | repeat constructor
     | vm_compute; reflexivity | reflexivity].
Defined.

(** ** A primary record in the document *)

Lemma annotation_note_truthy row :
  truthy_str (Some (annotation_note row))
  = truthy_str (row_note row) || bool_decide (row_annotation_type row <> None).
Proof.
  unfold annotation_note.
  destruct (row_annotation_type row) as [ty|].
  - rewrite orb_true_r.
    destruct (truthy_str (Some (if truthy_str (row_note row) then fmt_str (row_note row) else "")));
      destruct (truthy_num (row_is_underline row)); reflexivity.
  - rewrite orb_false_r.
    destruct (row_note row) as [n|]; [|reflexivity].
    simpl. destruct (String.eqb n "") eqn:E; simpl; [reflexivity|]. rewrite E. reflexivity.
Qed.

(** X21. What the exporter writes for a record of the primary path: the
    quote is the selected text, followed by a context paragraph when the
    representative text is a non-empty string; there is a note line exactly
    when the annotation has a non-empty note or a type that is not NULL; the
    chapter line always reads [N/A]. *)
Theorem process_row_chunks
  (filter_title : option string) (row : annotation) (s s' : state) (h : Highlight)
  (machine : platform) :
  process_row filter_title row s = (Ok (Some h), s') ->
  record_chunks machine h
  = [Quote (if truthy_str (row_representative_text row)
            then row_text row +:+ nl +:+ nl +:+ "Context: "
                 +:+ fmt_str (row_representative_text row)
            else row_text row)]
    ++ (if truthy_str (row_note row) || bool_decide (row_annotation_type row <> None)
        then [Note (annotation_note row)] else [])
    ++ [Chapter "N/A"; Date (strftime machine (created_at h))].
Proof.
  intros H. apply process_row_inv in H as (created & title & _ & _ & Hr).
  destruct (skipped (os s') filter_title title); [discriminate|]. injection Hr as ->.
  unfold record_chunks. cbn [text note chapter created_at].
  rewrite annotation_note_truthy. reflexivity.
Qed.

Lemma process_row_chunks_witness :
  let s := Sample.connected (Sample.annotations []) (Sample.library [Sample.dune]) Sample.at_noon in
  let row := {| row_text := "spice"; row_created_at := Some (Integer 100); row_note := None;
                row_book_id := Some "A1"; row_representative_text := Some "the spice must flow";
                row_annotation_type := Some 2; row_is_underline := Some 0;
                row_decodable := true |} in
  record_chunks Sample.utc
    {| text := "spice" +:+ nl +:+ nl +:+ "Context: the spice must flow";
       created_at := 978307300000000; book_title := "Dune"; chapter := None;
       note := Some "Highlight" |}
  = [ Quote ("spice" +:+ nl +:+ nl +:+ "Context: the spice must flow");
      Note "Highlight"; Chapter "N/A"; Date "2001-01-01 00:01:40" ].
Proof.
  intros s row.
  exact (process_row_chunks None row s s _ Sample.utc eq_refl).
Defined.

(** ** The exceptions of get_highlights *)









